(** * qinfer.abstract_model: the abstract model contract

    A shallow embedding of [src/qinfer/abstract_model.py]: the classes
    [Simulatable], [Model] and [DifferentiableModel], their instrumentation
    counters, the default inverse-CDF simulator and the static helper
    [pr0_to_likelihood_array].

    - Python integers are [Z]; array lengths and indices are [nat].
    - [float64] values are Rocq's primitive binary64 floats.
    - An instance is its attribute dictionary, a [gmap string Z]; an attribute
      that was never assigned is absent and reading it raises
      [AttributeError].
    - A method is a computation over the attribute dictionary that either
      returns or raises; what it stored before raising stays stored.
    - [numpy.random] is a stream of draws handed to the simulator. *)

From Stdlib Require Import ZArith List Floats Lia.
From stdpp Require Import gmap strings list.

Local Open Scope Z_scope.

(** ** Exceptions and the two effect layers *)

Inductive exn : Set :=
  | AttributeError
  | IndexError
  | TypeError
  | ValueError.

(** A pure numpy expression returns or raises. *)
Inductive result (A : Type) : Type :=
  | Ok (a : A)
  | Raise (e : exn).
Arguments Ok {A} a.
Arguments Raise {A} e.

#[export] Instance result_ret : MRet result := λ A a, Ok a.
#[export] Instance result_bind : MBind result := λ A B f r,
  match r with
  | Ok a => f a
  | Raise e => Raise e
  end.
#[export] Instance result_throw : MThrow exn result := λ A e, Raise e.

(** The attribute dictionary of [self]. *)
Abbreviation instance := (gmap string Z).

(** A method body: it threads [self.__dict__] and may raise. *)
Definition py (A : Type) : Type := instance → instance * result A.

#[export] Instance py_ret : MRet py := λ A a s, (s, Ok a).
#[export] Instance py_bind : MBind py := λ A B f m s,
  match m s with
  | (s', Ok a) => f a s'
  | (s', Raise e) => (s', Raise e)
  end.
#[export] Instance py_throw : MThrow exn py := λ A e s, (s, Raise e).

(** A numpy expression evaluated inside a method: [self] is not touched. *)
Definition lift {A} (r : result A) : py A := λ s, (s, r).

(** [self.name] *)
Definition getattr (name : string) : py Z := λ s,
  match s !! name with
  | Some v => (s, Ok v)
  | None => (s, Raise AttributeError)
  end.

(** [self.name = v] *)
Definition setattr (name : string) (v : Z) : py unit := λ s,
  (<[name := v]> s, Ok tt).

(** ** The numpy fragment the module uses *)

(** An array of any rank: its shape and its elements in C order.  Arrays
    whose rank the code fixes to one (an outcome index set, the output of
    [cumsum] without an axis, the output of [argmax] over a matrix) are plain
    lists. *)
Record ndarray (A : Type) : Type := mk_ndarray {
  shape : list nat;
  data : list A
}.
Arguments mk_ndarray {A} shape data.
Arguments shape {A} n.
Arguments data {A} n.

(** A matrix, the result of comparing a row against a column. *)
Record array2 (A : Type) : Type := mk_array2 {
  dim0 : nat;
  dim1 : nat;
  cells : list A
}.
Arguments mk_array2 {A} dim0 dim1 cells.
Arguments dim0 {A} a.
Arguments dim1 {A} a.
Arguments cells {A} a.

Module np.

Definition prod (dims : list nat) : nat := foldr Nat.mul 1%nat dims.

(** Every numpy array holds as many elements as its shape says. *)
Definition wf {A} (a : ndarray A) : Prop :=
  length (data a) = prod (shape a).

(** [np.array(l)] for a flat list [l] *)
Definition array1 {A} (l : list A) : ndarray A :=
  mk_ndarray [length l] l.

(** [a.shape[0]]: the shape tuple of a zero-dimensional array is empty. *)
Definition shape0 {A} (a : ndarray A) : result nat :=
  match shape a with
  | [] => Raise IndexError
  | n :: _ => Ok n
  end.

(** [a[np.newaxis, ...]] *)
Definition newaxis {A} (a : ndarray A) : ndarray A :=
  mk_ndarray (1%nat :: shape a) (data a).

(** [a[np.newaxis, :]]: the slice [:] needs an axis to range over. *)
Definition newaxis_colon {A} (a : ndarray A) : result (ndarray A) :=
  match shape a with
  | [] => Raise IndexError
  | _ :: _ => Ok (newaxis a)
  end.

(** [l[0]] on a one-dimensional array *)
Definition getitem0 {A} (l : list A) : result A :=
  match l with
  | [] => Raise IndexError
  | x :: _ => Ok x
  end.

(** [a[i]]: the [i]-th slice along the leading axis. *)
Definition getitem {A} (a : ndarray A) (i : nat) : result (ndarray A) :=
  match shape a with
  | [] => Raise IndexError
  | n :: tl =>
      if (i <? n)%nat
      then Ok (mk_ndarray tl (take (prod tl) (drop (i * prod tl) (data a))))
      else Raise IndexError
  end.

(** [1 - a], elementwise in float64 *)
Definition one_minus (a : ndarray float) : ndarray float :=
  mk_ndarray (shape a) ((λ x, 1 - x)%float <$> data a).

(** [np.concatenate(arrays)] along axis 0: at least one array, none of
    rank zero, all of one shape from axis 1 on. *)
Definition concatenate {A} (arrays : list (ndarray A)) : result (ndarray A) :=
  match arrays with
  | [] => Raise ValueError
  | a :: _ =>
      match shape a with
      | [] => Raise ValueError
      | _ :: tl =>
          if forallb (λ b, bool_decide (shape b ≠ [] ∧ tail (shape b) = tl)) arrays
          then Ok (mk_ndarray
                     (foldr (λ b n, (hd 0 (shape b) + n)%nat) 0%nat arrays :: tl)
                     (concat (data <$> arrays)))
          else Raise ValueError
      end
  end.

(** [np.arange(n)] for an integer [n] *)
Definition range (n : nat) : list Z := Z.of_nat <$> seq 0 n.

(** [np.arange(counts)] where [counts] is an array: numpy converts its
    argument to a scalar, which only an array of exactly one element
    allows. *)
Definition arange (counts : list nat) : result (list Z) :=
  match counts with
  | [n] => Ok (range n)
  | _ => Raise TypeError
  end.

(** The running sums [acc + x1], [acc + x1 + x2], ... *)
Fixpoint accumulate (acc : float) (l : list float) : list float :=
  match l with
  | [] => []
  | x :: l' => let acc' := (acc + x)%float in acc' :: accumulate acc' l'
  end.

Definition cumsum_list (l : list float) : list float :=
  match l with
  | [] => []
  | x :: l' => x :: accumulate x l'
  end.

(** [np.cumsum(a)] with no [axis]: the array is flattened first, and the
    result is one-dimensional. *)
Definition cumsum (a : ndarray float) : list float := cumsum_list (data a).

(** [np.random.random((repeat, 1))]: a column of [repeat] draws. *)
Definition random_random (rng : nat → float) (repeat : Z) : result (list float) :=
  if repeat <? 0 then Raise ValueError
  else Ok (rng <$> seq 0 (Z.to_nat repeat)).

(** [row > col] for [row] of shape [(N,)] and [col] of shape [(R, 1)]:
    broadcasting gives shape [(R, N)], entry [[r, j]] is [row[j] > col[r]]. *)
Definition greater (row col : list float) : array2 bool :=
  mk_array2 (length col) (length row)
    (col ≫= λ u, (λ c, PrimFloat.ltb u c) <$> row).

(** The rows of a matrix stored in C order. *)
Fixpoint rows {A} (r n : nat) (l : list A) : list (list A) :=
  match r with
  | O => []
  | S r' => take n l :: rows r' n (drop n l)
  end.

Fixpoint first_true (l : list bool) : option nat :=
  match l with
  | [] => None
  | b :: l' => if b then Some 0%nat else S <$> first_true l'
  end.

(** [argmax] of a row of booleans: the first position of the maximum, so
    the first [True], and position 0 when the row is all [False]. *)
Definition argmax_row (l : list bool) : nat := default 0%nat (first_true l).

(** [np.argmax(a, axis=1)]: refuses an axis of length zero. *)
Definition argmax_axis1 (a : array2 bool) : result (list nat) :=
  if (dim1 a =? 0)%nat then Raise ValueError
  else Ok (argmax_row <$> rows (dim0 a) (dim1 a) (cells a)).

End np.

(** ** class Simulatable *)

Module Simulatable.

(** What a concrete class supplies for the abstract members.  The element
    type [E] of an experiment array plays the role of [expparams_dtype]. *)
Record methods (E : Type) : Type := {
  n_modelparams : nat;
  n_outcomes : ndarray E → list nat;
  are_models_valid : ndarray float → list bool
}.
Arguments n_modelparams {E} m.
Arguments n_outcomes {E} m expparams.
Arguments are_models_valid {E} m modelparams.

Definition __init__ : py unit := setattr "_sim_count" 0.

Definition is_n_outcomes_constant : bool := false.

Definition sim_count : py Z := getattr "_sim_count".

(** The body of the abstract method: [self._sim_count += ...].  The
    attribute is read before the right-hand side is evaluated. *)
Definition simulate_experiment {E}
    (modelparams : ndarray float) (expparams : ndarray E) (repeat : Z) : py unit :=
  count ← getattr "_sim_count";
  n_models ← lift (np.shape0 modelparams);
  n_experiments ← lift (np.shape0 expparams);
  setattr "_sim_count"
    (count + Z.of_nat n_models * Z.of_nat n_experiments * repeat).

End Simulatable.

(** ** class Model(Simulatable) *)

(** What [simulate_experiment] hands back: [outcomes[0]] or [outcomes]. *)
Inductive retval : Set :=
  | Scalar (k : nat)
  | Array (a : list nat).

Module Model.

(** [self_likelihood] is the method [self.likelihood] resolves to: the
    override of the concrete class. *)
Record methods (E : Type) : Type := {
  simulatable :> Simulatable.methods E;
  self_likelihood : list Z → ndarray float → ndarray E → py (ndarray float)
}.
Arguments simulatable {E} m.
Arguments self_likelihood {E} m outcomes modelparams expparams.

(** [Model.__init__] does not chain to [Simulatable.__init__]. *)
Definition __init__ : py unit := setattr "_call_count" 0.

Definition call_count : py Z := getattr "_call_count".

(** The body of the abstract method: [self._call_count += ...]. *)
Definition likelihood {E}
    (outcomes : list Z) (modelparams : ndarray float) (expparams : ndarray E) : py unit :=
  count ← getattr "_call_count";
  n_models ← lift (np.shape0 modelparams);
  n_experiments ← lift (np.shape0 expparams);
  setattr "_call_count"
    (count + Z.of_nat (length outcomes) * Z.of_nat n_models * Z.of_nat n_experiments).

(** A concrete class written the way the class comment asks: its
    [likelihood] calls the inherited method, then computes the tensor. *)
Definition concrete {E} (base : Simulatable.methods E)
    (tensor : list Z → ndarray float → ndarray E → result (ndarray float)) : methods E :=
  {| simulatable := base;
     self_likelihood := λ outcomes modelparams expparams,
       likelihood outcomes modelparams expparams ;;
       lift (tensor outcomes modelparams expparams) |}.

Definition is_model_valid {E} (self : methods E) (modelparams : ndarray float) : py bool :=
  batch ← lift (np.newaxis_colon modelparams);
  lift (np.getitem0 (Simulatable.are_models_valid self batch)).

Definition simulate_experiment {E} (self : methods E) (rng : nat → float)
    (modelparams : ndarray float) (expparams : ndarray E) (repeat : Z) : py retval :=
  Simulatable.simulate_experiment modelparams expparams repeat ;;
  all_outcomes ← lift (np.arange (Simulatable.n_outcomes self expparams));
  probabilities ← self_likelihood self all_outcomes modelparams expparams;
  let cdf := np.cumsum probabilities in
  randnum ← lift (np.random_random rng repeat);
  outcomes ← lift (np.argmax_axis1 (np.greater cdf randnum));
  if repeat =? 1
  then k ← lift (np.getitem0 outcomes); mret (Scalar k)
  else mret (Array outcomes).

(** The static method: no [self] is in scope. *)
Definition pr0_to_likelihood_array (outcomes : list Z) (pr0 : ndarray float)
    : result (ndarray float) :=
  let pr0 := np.newaxis pr0 in
  np.concatenate
    ((λ outcome, if outcome =? 0 then pr0 else np.one_minus pr0) <$> outcomes).

End Model.

Coercion Model.simulatable : Model.methods >-> Simulatable.methods.

(** ** class DifferentiableModel(Model) *)

Module DifferentiableModel.

Record methods (E : Type) : Type := {
  model :> Model.methods E;
  grad_log_likelihood : Z → ndarray float → ndarray E → ndarray float
}.

End DifferentiableModel.

(** ** Vocabulary of the specification *)

(** The state a method leaves behind, whether it returned or raised. *)
Definition after {A} (m : py A) (s : instance) : instance := (m s).1.

(** Every attribute outside [names] reads the same in [s'] as in [s]. *)
Definition unchanged_except (names : list string) (s s' : instance) : Prop :=
  ∀ a, a ∉ names → s' !! a = s !! a.

(** A method that assigns to no attribute outside [names]. *)
Definition writes_only {A} (names : list string) (m : py A) : Prop :=
  ∀ s, unchanged_except names s (after m s).

(** The length of the leading axis, [0] for a zero-dimensional array. *)
Definition leading {A} (a : ndarray A) : nat := hd 0%nat (shape a).

(** [t[:, m, e]]: the entries of a tensor of shape
    [(n_outcomes, n_models, n_experiments)] along its outcome axis. *)
Definition outcome_axis (t : ndarray float) (m e : nat) : list float :=
  match shape t with
  | [n_outcomes; n_models; n_experiments] =>
      (λ o, nth ((o * n_models + m) * n_experiments + e) (data t) 0%float)
        <$> seq 0 n_outcomes
  | _ => []
  end.

(** The cumulative sum along the outcome axis, for the pair [(m, e)]. *)
Definition cdf_along_outcomes (t : ndarray float) (m e : nat) : list float :=
  np.cumsum_list (outcome_axis t m e).

(** A well-formed likelihood tensor of the documented shape. *)
Definition tensor_ok (t : ndarray float) (n_outcomes n_models n_experiments : nat) : Prop :=
  shape t = [n_outcomes; n_models; n_experiments] ∧ np.wf t.

(** Some entry of [cdf] strictly exceeds the draw [u]. *)
Definition exceeded (cdf : list float) (u : float) : Prop :=
  Exists (λ c, PrimFloat.ltb u c = true) cdf.

(** [k] is the smallest index whose entry of [cdf] strictly exceeds [u]. *)
Definition first_exceeding (cdf : list float) (u : float) (k : nat) : Prop :=
  (∃ c, cdf !! k = Some c ∧ PrimFloat.ltb u c = true) ∧
  ∀ j c, (j < k)%nat → cdf !! j = Some c → PrimFloat.ltb u c = false.

(** What line 160 computes for one draw [u]: [argmax] over the row
    [cdf > u]. *)
Definition drawn (cdf : list float) (u : float) : nat :=
  np.argmax_row ((λ c, PrimFloat.ltb u c) <$> cdf).

(** The outcomes a call returned, one per draw. *)
Definition outcomes_of (r : retval) : list nat :=
  match r with
  | Scalar k => [k]
  | Array a => a
  end.

(** A call on one (model, experiment) pair: the instance holds both counters,
    the arrays have the documented shapes, the model reports [n >= 1]
    outcomes for the experiment, and its likelihood over the outcomes
    [0 .. n-1] is a tensor [t] of shape [(n, 1, 1)]. *)
Record single_pair {E} (base : Simulatable.methods E)
    (tensor : list Z → ndarray float → ndarray E → result (ndarray float))
    (modelparams : ndarray float) (expparams : ndarray E) (s : instance)
    (n : nat) (t : ndarray float) : Prop := {
  pair_sim_count : is_Some (s !! "_sim_count");
  pair_call_count : is_Some (s !! "_call_count");
  pair_modelparams : shape modelparams = [1%nat; Simulatable.n_modelparams base];
  pair_expparams : shape expparams = [1%nat];
  pair_n_outcomes : Simulatable.n_outcomes base expparams = [n];
  pair_has_outcome : (0 < n)%nat;
  pair_likelihood : tensor (np.range n) modelparams expparams = Ok t;
  pair_tensor : tensor_ok t n 1 1
}.

(** ** Call sequences *)

Record simulate_call (E : Type) : Type := {
  sim_rng : nat → float;
  sim_modelparams : ndarray float;
  sim_expparams : ndarray E;
  sim_repeat : Z
}.
Arguments sim_rng {E} _.
Arguments sim_modelparams {E} _.
Arguments sim_expparams {E} _.
Arguments sim_repeat {E} _.

Record likelihood_call (E : Type) : Type := {
  lik_outcomes : list Z;
  lik_modelparams : ndarray float;
  lik_expparams : ndarray E
}.
Arguments lik_outcomes {E} _.
Arguments lik_modelparams {E} _.
Arguments lik_expparams {E} _.

(** The calls are made one after the other on the same instance; a caller
    that catches an exception goes on with the instance as the call left
    it. *)
Definition simulate_all {E} (self : Model.methods E)
    (calls : list (simulate_call E)) (s : instance) : instance :=
  foldl (λ s c, after (Model.simulate_experiment self (sim_rng c)
                         (sim_modelparams c) (sim_expparams c) (sim_repeat c)) s)
        s calls.

Definition likelihood_all {E} (self : Model.methods E)
    (calls : list (likelihood_call E)) (s : instance) : instance :=
  foldl (λ s c, after (Model.self_likelihood self (lik_outcomes c)
                         (lik_modelparams c) (lik_expparams c)) s)
        s calls.

(** The totals the counters are meant to hold. *)
Definition simulate_total {E} (calls : list (simulate_call E)) : Z :=
  foldr (λ c n, Z.of_nat (leading (sim_modelparams c))
                * Z.of_nat (leading (sim_expparams c)) * sim_repeat c + n) 0 calls.

Definition likelihood_total {E} (calls : list (likelihood_call E)) : Z :=
  foldr (λ c n, Z.of_nat (length (lik_outcomes c))
                * Z.of_nat (leading (lik_modelparams c))
                * Z.of_nat (leading (lik_expparams c)) + n) 0 calls.

(** Every array of the call has a leading axis. *)
Definition simulate_call_batched {E} (c : simulate_call E) : Prop :=
  shape (sim_modelparams c) ≠ [] ∧ shape (sim_expparams c) ≠ [].

Definition likelihood_call_batched {E} (c : likelihood_call E) : Prop :=
  shape (lik_modelparams c) ≠ [] ∧ shape (lik_expparams c) ≠ [].

(** ** Concrete models used as test inputs *)

Module Examples.

Definition full (dims : list nat) (x : float) : ndarray float :=
  mk_ndarray dims (replicate (np.prod dims) x).

(** One outcome count per experiment, each equal to [n]. *)
Definition constant_outcomes (n : nat) : Simulatable.methods unit :=
  {| Simulatable.n_modelparams := 1;
     Simulatable.n_outcomes := λ expparams, (λ _, n) <$> data expparams;
     Simulatable.are_models_valid := λ modelparams,
       replicate (leading modelparams) true |}.

(** A two-outcome model with [pr0 = p] for every model and experiment,
    its likelihood written with [pr0_to_likelihood_array]. *)
Definition two_outcome (p : float) : Model.methods unit :=
  Model.concrete (constant_outcomes 2)
    (λ outcomes modelparams expparams,
       Model.pr0_to_likelihood_array outcomes
         (full [leading modelparams; leading expparams] p)).

(** A two-outcome model whose likelihood does not sum to one: both
    outcomes are given probability [1/4]. *)
Definition deficient : Model.methods unit :=
  Model.concrete (constant_outcomes 2)
    (λ outcomes modelparams expparams,
       Ok (full [length outcomes; leading modelparams; leading expparams] 0.25)).

(** A model valid exactly when its first parameter is positive. *)
Definition positive_first : Simulatable.methods unit :=
  {| Simulatable.n_modelparams := 2;
     Simulatable.n_outcomes := λ expparams, (λ _, 2%nat) <$> data expparams;
     Simulatable.are_models_valid := λ modelparams,
       (λ row, PrimFloat.ltb 0 (hd 0%float row))
         <$> np.rows (leading modelparams) (np.prod (tail (shape modelparams)))
               (data modelparams) |}.

Definition one_model : ndarray float := mk_ndarray [1; 1]%nat [0.5%float].
Definition two_models : ndarray float := mk_ndarray [2; 1]%nat [0.5%float; 0.5%float].
Definition one_experiment : ndarray unit := mk_ndarray [1%nat] [tt].
Definition two_experiments : ndarray unit := mk_ndarray [2%nat] [tt; tt].

(** An instance whose class initialised both counters. *)
Definition counted : instance :=
  after Model.__init__ (after Simulatable.__init__ ∅).

(** An instance built by [Model.__init__] alone. *)
Definition model_only : instance := after Model.__init__ ∅.

End Examples.

(** ** Totals and inputs for the edge cases *)

(** What the [likelihood] calls made by a sequence of [simulate_experiment]
    calls add to [_call_count]: each call asks for as many outcomes as the
    single entry of [n_outcomes(expparams)]. *)
Definition simulate_likelihood_total {E} (base : Simulatable.methods E)
    (calls : list (simulate_call E)) : Z :=
  foldr (λ c n, Z.of_nat (hd 0%nat (Simulatable.n_outcomes base (sim_expparams c)))
                * Z.of_nat (leading (sim_modelparams c))
                * Z.of_nat (leading (sim_expparams c)) + n) 0 calls.

(** The batch has a leading axis and the model reports one outcome count
    for it. *)
Definition simulate_call_counted {E} (base : Simulatable.methods E)
    (c : simulate_call E) : Prop :=
  simulate_call_batched c ∧
  length (Simulatable.n_outcomes base (sim_expparams c)) = 1%nat.

Module Edge.

(** [np.array(0.5)]: an array of rank zero. *)
Definition zero_dimensional : ndarray float := mk_ndarray [] [0.5%float].

(** An instance built by [Simulatable.__init__] alone. *)
Definition simulatable_only : instance := after Simulatable.__init__ ∅.

End Edge.

(** * Proofs *)

(** ** Running a method step by step *)

Section Steps.
Context {A B : Type}.
Implicit Types (m : py A) (f : A → py B) (s : instance).

Lemma bind_ok m f s s' a :
  m s = (s', Ok a) → (m ≫= f) s = f a s'.
Proof. intros Hm. unfold mbind, py_bind. by rewrite Hm. Qed.

Lemma bind_raise m f s s' e :
  m s = (s', Raise e) → (m ≫= f) s = (s', Raise e).
Proof. intros Hm. unfold mbind, py_bind. by rewrite Hm. Qed.

Lemma after_bind_ok m f s s' a :
  m s = (s', Ok a) → after (m ≫= f) s = after (f a) s'.
Proof. intros Hm. unfold after. by rewrite (bind_ok _ _ _ _ _ Hm). Qed.

Lemma after_bind_raise m f s s' e :
  m s = (s', Raise e) → after (m ≫= f) s = s'.
Proof. intros Hm. unfold after. by rewrite (bind_raise _ _ _ _ _ Hm). Qed.
End Steps.

Lemma getattr_some name s v :
  s !! name = Some v → getattr name s = (s, Ok v).
Proof. intros H. unfold getattr. by rewrite H. Qed.

Lemma getattr_none name s :
  s !! name = None → getattr name s = (s, Raise AttributeError).
Proof. intros H. unfold getattr. by rewrite H. Qed.

Lemma shape0_leading {A} (a : ndarray A) :
  shape a ≠ [] → np.shape0 a = Ok (leading a).
Proof. unfold np.shape0, leading. by destruct (shape a). Qed.

(** ** Which attributes a method may assign *)

Lemma unchanged_refl names s : unchanged_except names s s.
Proof. by intros a _. Qed.

Lemma unchanged_trans names s1 s2 s3 :
  unchanged_except names s1 s2 → unchanged_except names s2 s3 →
  unchanged_except names s1 s3.
Proof. intros H12 H23 a Ha. rewrite (H23 a Ha). by apply H12. Qed.


Lemma unchanged_insert names name v s :
  name ∈ names → unchanged_except names s (<[name := v]> s).
Proof.
  intros Hin a Ha. rewrite lookup_insert_ne; [done|].
  intros ->. by apply Ha.
Qed.

Lemma writes_only_ret {A} names (a : A) : writes_only names (mret a).
Proof. intros s. apply unchanged_refl. Qed.

Lemma writes_only_lift {A} names (r : result A) : writes_only names (lift r).
Proof. intros s. apply unchanged_refl. Qed.

Lemma writes_only_getattr names name : writes_only names (getattr name).
Proof. intros s. unfold after, getattr. destruct (s !! name); apply unchanged_refl. Qed.

Lemma writes_only_setattr names name v :
  name ∈ names → writes_only names (setattr name v).
Proof. intros Hin s. by apply unchanged_insert. Qed.

Lemma writes_only_bind {A B} names (m : py A) (f : A → py B) :
  writes_only names m → (∀ a, writes_only names (f a)) →
  writes_only names (m ≫= f).
Proof.
  intros Hm Hf s. specialize (Hm s). unfold after in *.
  unfold mbind, py_bind. destruct (m s) as [s' [a|e]]; simpl in *; [|done].
  eapply unchanged_trans; [exact Hm|]. apply Hf.
Qed.


Create HintDb frame.
#[local] Hint Resolve writes_only_ret writes_only_lift writes_only_getattr : frame.

Ltac frame_steps :=
  repeat first
    [ apply writes_only_bind; [|intros ?]
    | apply writes_only_setattr; set_solver
    | solve [auto with frame] ].


Lemma Model_likelihood_writes {E}
    outcomes (modelparams : ndarray float) (expparams : ndarray E) :
  writes_only ["_call_count"] (Model.likelihood outcomes modelparams expparams).
Proof. unfold Model.likelihood. frame_steps. Qed.

Lemma concrete_likelihood_writes {E} (base : Simulatable.methods E) tensor
    outcomes modelparams expparams :
  writes_only ["_call_count"]
    (Model.self_likelihood (Model.concrete base tensor) outcomes modelparams expparams).
Proof.
  simpl. apply writes_only_bind; [apply Model_likelihood_writes|].
  intros _. apply writes_only_lift.
Qed.


(** ** The counters *)

Lemma Simulatable_simulate_experiment_counts {E}
    (modelparams : ndarray float) (expparams : ndarray E) repeat s c :
  s !! "_sim_count" = Some c →
  shape modelparams ≠ [] → shape expparams ≠ [] →
  Simulatable.simulate_experiment modelparams expparams repeat s =
  (<["_sim_count" :=
       c + Z.of_nat (leading modelparams) * Z.of_nat (leading expparams) * repeat]> s,
   Ok tt).
Proof.
  intros Hc Hm He. unfold Simulatable.simulate_experiment.
  rewrite (bind_ok _ _ _ _ _ (getattr_some _ _ _ Hc)).
  rewrite (shape0_leading _ Hm), (shape0_leading _ He). reflexivity.
Qed.

Lemma Simulatable_simulate_experiment_missing {E}
    (modelparams : ndarray float) (expparams : ndarray E) repeat s :
  s !! "_sim_count" = None →
  Simulatable.simulate_experiment modelparams expparams repeat s =
  (s, Raise AttributeError).
Proof.
  intros Hc. unfold Simulatable.simulate_experiment.
  apply bind_raise, getattr_none, Hc.
Qed.

Lemma Model_likelihood_counts {E}
    outcomes (modelparams : ndarray float) (expparams : ndarray E) s k :
  s !! "_call_count" = Some k →
  shape modelparams ≠ [] → shape expparams ≠ [] →
  Model.likelihood outcomes modelparams expparams s =
  (<["_call_count" :=
       k + Z.of_nat (length outcomes) * Z.of_nat (leading modelparams)
           * Z.of_nat (leading expparams)]> s,
   Ok tt).
Proof.
  intros Hk Hm He. unfold Model.likelihood.
  rewrite (bind_ok _ _ _ _ _ (getattr_some _ _ _ Hk)).
  rewrite (shape0_leading _ Hm), (shape0_leading _ He). reflexivity.
Qed.

Lemma concrete_likelihood_runs {E} (base : Simulatable.methods E) tensor
    outcomes modelparams expparams s k :
  s !! "_call_count" = Some k →
  shape modelparams ≠ [] → shape expparams ≠ [] →
  Model.self_likelihood (Model.concrete base tensor) outcomes modelparams expparams s =
  (<["_call_count" :=
       k + Z.of_nat (length outcomes) * Z.of_nat (leading modelparams)
           * Z.of_nat (leading expparams)]> s,
   tensor outcomes modelparams expparams).
Proof.
  intros Hk Hm He. simpl.
  by rewrite (bind_ok _ _ _ _ _ (Model_likelihood_counts _ _ _ _ _ Hk Hm He)).
Qed.

(** ** Lists: rows of a matrix, the first [True], running sums *)

Lemma rows_bind {A B C} (g : A → B → C) (col : list A) (row : list B) :
  np.rows (length col) (length row) (col ≫= λ u, g u <$> row) =
  (λ u, g u <$> row) <$> col.
Proof.
  induction col as [|u col IH]; [done|].
  cbn [length np.rows fmap list_fmap]. rewrite bind_cons.
  rewrite take_app_length', drop_app_length' by by rewrite length_fmap.
  by rewrite IH.
Qed.

Lemma first_true_Some l k :
  np.first_true l = Some k →
  l !! k = Some true ∧ ∀ j, (j < k)%nat → l !! j = Some false.
Proof.
  revert k. induction l as [|b l IH]; intros k; [done|].
  cbn [np.first_true]. destruct b.
  - intros [= <-]. split; [done|]. intros j Hj. lia.
  - destruct (np.first_true l) as [k'|]; [|done].
    intros [= <-]. destruct (IH k' eq_refl) as [Hk Hlt]. split; [done|].
    intros [|j] Hj; [done|]. apply Hlt. lia.
Qed.

Lemma first_true_None l :
  np.first_true l = None → ∀ j b, l !! j = Some b → b = false.
Proof.
  induction l as [|b l IH]; [done|].
  cbn [np.first_true]. destruct b; [done|].
  destruct (np.first_true l); [done|]. intros _ [|j] b'.
  - by intros [= <-].
  - by apply IH.
Qed.

Lemma first_true_is_Some l j :
  l !! j = Some true → is_Some (np.first_true l).
Proof.
  intros Hj. destruct (np.first_true l) eqn:Hf; [by eexists|].
  by specialize (first_true_None _ Hf _ _ Hj).
Qed.

Lemma argmax_row_lt l : l ≠ [] → (np.argmax_row l < length l)%nat.
Proof.
  intros Hl. unfold np.argmax_row.
  destruct (np.first_true l) as [k|] eqn:Hf; simpl.
  - apply first_true_Some in Hf as [Hk _]. by apply lookup_lt_Some in Hk.
  - destruct l; [done|]. simpl. lia.
Qed.

Lemma length_accumulate acc l : length (np.accumulate acc l) = length l.
Proof. revert acc. induction l as [|x l IH]; intros acc; simpl; [done|]. by rewrite IH. Qed.

Lemma length_cumsum_list l : length (np.cumsum_list l) = length l.
Proof. destruct l; simpl; [done|]. by rewrite length_accumulate. Qed.

(** ** The default simulator, run to its result *)

Lemma argmax_greater cdf randnum :
  cdf ≠ [] →
  np.argmax_axis1 (np.greater cdf randnum) = Ok (drawn cdf <$> randnum).
Proof.
  intros Hcdf. unfold np.argmax_axis1, np.greater. cbn [dim0 dim1 cells].
  destruct (Nat.eqb_spec (length cdf) 0) as [H0|_].
  { by destruct cdf. }
  rewrite (rows_bind (λ u c, PrimFloat.ltb u c)).
  by rewrite <- list_fmap_compose.
Qed.

Lemma Model_simulate_experiment_runs {E} (base : Simulatable.methods E) tensor
    rng modelparams expparams repeat s c k n t :
  s !! "_sim_count" = Some c →
  s !! "_call_count" = Some k →
  shape modelparams ≠ [] → shape expparams ≠ [] →
  Simulatable.n_outcomes base expparams = [n] →
  tensor (np.range n) modelparams expparams = Ok t →
  data t ≠ [] →
  0 ≤ repeat →
  Model.simulate_experiment (Model.concrete base tensor) rng
    modelparams expparams repeat s =
  (<["_call_count" :=
       k + Z.of_nat n * Z.of_nat (leading modelparams) * Z.of_nat (leading expparams)]>
     (<["_sim_count" :=
          c + Z.of_nat (leading modelparams) * Z.of_nat (leading expparams) * repeat]> s),
   Ok (if repeat =? 1
       then Scalar (drawn (np.cumsum t) (rng 0%nat))
       else Array (drawn (np.cumsum t) <$> (rng <$> seq 0 (Z.to_nat repeat))))).
Proof.
  intros Hc Hk Hm He Hn Ht Hdata Hrep. unfold Model.simulate_experiment.
  rewrite (bind_ok _ _ _ _ _
             (Simulatable_simulate_experiment_counts _ _ repeat _ _ Hc Hm He)).
  cbn [Model.simulatable Model.concrete]. rewrite Hn. cbn [np.arange].
  rewrite (bind_ok (lift (Ok (np.range n))) _ _ _ _ eq_refl).
  erewrite bind_ok; last first.
  { rewrite (concrete_likelihood_runs base tensor (np.range n) _ _ _ k);
      [|by rewrite lookup_insert_ne|done..].
    rewrite Ht. unfold np.range. rewrite length_fmap, length_seq. reflexivity. }
  cbv zeta. unfold np.random_random.
  destruct (Z.ltb_spec repeat 0) as [?|_]; [lia|].
  rewrite (bind_ok (lift (Ok _)) _ _ _ _ eq_refl).
  rewrite argmax_greater; last first.
  { unfold np.cumsum. intros Hnil. apply Hdata.
    apply length_zero_iff_nil. by rewrite <- length_cumsum_list, Hnil. }
  rewrite (bind_ok (lift (Ok _)) _ _ _ _ eq_refl).
  destruct (Z.eqb_spec repeat 1) as [->|_]; [|done].
  reflexivity.
Qed.

(** ** What one draw selects *)

Lemma drawn_first_exceeding cdf u :
  exceeded cdf u → first_exceeding cdf u (drawn cdf u).
Proof.
  intros Hex. apply Exists_exists in Hex as (c & Hc & Hlt).
  apply list_elem_of_lookup in Hc as [j Hj].
  assert (((λ c, PrimFloat.ltb u c) <$> cdf) !! j = Some true) as Hrow.
  { by rewrite list_lookup_fmap, Hj; simpl; rewrite Hlt. }
  destruct (first_true_is_Some _ _ Hrow) as [k Hk].
  unfold drawn, np.argmax_row. rewrite Hk. simpl.
  apply first_true_Some in Hk as [Hk Hbefore]. split.
  - rewrite list_lookup_fmap in Hk.
    destruct (cdf !! k) as [c'|]; [|done]. simpl in Hk. exists c'.
    split; [done|]. congruence.
  - intros i c' Hi Hc'. specialize (Hbefore i Hi).
    rewrite list_lookup_fmap, Hc' in Hbefore. simpl in Hbefore. congruence.
Qed.

Lemma drawn_not_exceeded cdf u :
  ¬ exceeded cdf u → drawn cdf u = 0%nat.
Proof.
  intros Hno. unfold drawn, np.argmax_row.
  destruct (np.first_true _) as [k|] eqn:Hf; [|done]. exfalso.
  apply first_true_Some in Hf as [Hk _].
  rewrite list_lookup_fmap in Hk.
  destruct (cdf !! k) as [c|] eqn:Hc; [|done]. simpl in Hk.
  apply Hno, Exists_exists. exists c. split; [|congruence].
  apply list_elem_of_lookup. by exists k.
Qed.

Lemma drawn_lt cdf u : cdf ≠ [] → (drawn cdf u < length cdf)%nat.
Proof.
  intros Hcdf. unfold drawn.
  rewrite <- (length_fmap (λ c, PrimFloat.ltb u c) cdf).
  apply argmax_row_lt. by destruct cdf.
Qed.

(** For a single (model, experiment) pair the flattened tensor is its
    outcome axis. *)
Lemma outcome_axis_single t n :
  tensor_ok t n 1 1 → outcome_axis t 0 0 = data t.
Proof.
  intros [Hshape Hwf]. unfold outcome_axis. rewrite Hshape.
  unfold np.wf in Hwf. rewrite Hshape in Hwf. simpl in Hwf.
  apply list_eq. intros i. rewrite list_lookup_fmap.
  destruct (decide (i < n)%nat) as [Hi|Hi].
  - rewrite lookup_seq_lt by done. simpl.
    replace ((i * 1 + 0) * 1 + 0)%nat with i by lia.
    destruct (nth_lookup_or_length (data t) i 0%float) as [->|Hlen]; [done|lia].
  - rewrite lookup_seq_ge by lia. simpl. symmetry.
    apply lookup_ge_None. lia.
Qed.

(** ** Counting over a sequence of calls *)

Lemma writes_nothing {A} (m : py A) s : writes_only [] m → after m s = s.
Proof.
  intros Hm. apply map_eq. intros a. apply Hm. apply not_elem_of_nil.
Qed.

(** After the two counter updates the default simulator only evaluates numpy
    expressions. *)
Lemma Model_simulate_experiment_state {E} (base : Simulatable.methods E) tensor
    rng modelparams expparams repeat s c k n :
  s !! "_sim_count" = Some c →
  s !! "_call_count" = Some k →
  shape modelparams ≠ [] → shape expparams ≠ [] →
  Simulatable.n_outcomes base expparams = [n] →
  after (Model.simulate_experiment (Model.concrete base tensor) rng
           modelparams expparams repeat) s =
  <["_call_count" :=
      k + Z.of_nat n * Z.of_nat (leading modelparams) * Z.of_nat (leading expparams)]>
    (<["_sim_count" :=
         c + Z.of_nat (leading modelparams) * Z.of_nat (leading expparams) * repeat]> s).
Proof.
  intros Hc Hk Hm He Hn. unfold Model.simulate_experiment.
  rewrite (after_bind_ok _ _ _ _ _
             (Simulatable_simulate_experiment_counts _ _ repeat _ _ Hc Hm He)).
  cbn [Model.simulatable Model.concrete]. rewrite Hn. cbn [np.arange].
  rewrite (after_bind_ok (lift (Ok (np.range n))) _ _ _ _ eq_refl).
  match goal with |- after _ ?s1 = _ =>
    pose proof (concrete_likelihood_runs base tensor (np.range n)
                  modelparams expparams s1 k) as Hlik
  end.
  rewrite lookup_insert_ne in Hlik by done. specialize (Hlik Hk Hm He).
  unfold np.range in Hlik at 2. rewrite length_fmap, length_seq in Hlik.
  destruct (tensor (np.range n) modelparams expparams) as [t|e].
  - rewrite (after_bind_ok _ _ _ _ _ Hlik). cbv zeta.
    apply writes_nothing.
    apply writes_only_bind; [apply writes_only_lift|]. intros randnum.
    apply writes_only_bind; [apply writes_only_lift|]. intros outcomes.
    destruct (repeat =? 1); frame_steps.
  - by rewrite (after_bind_raise _ _ _ _ _ Hlik).
Qed.

Lemma Model_simulate_experiment_sim_count {E} (base : Simulatable.methods E) tensor
    rng modelparams expparams repeat s c :
  s !! "_sim_count" = Some c →
  shape modelparams ≠ [] → shape expparams ≠ [] →
  after (Model.simulate_experiment (Model.concrete base tensor) rng
           modelparams expparams repeat) s !! "_sim_count" =
  Some (c + Z.of_nat (leading modelparams) * Z.of_nat (leading expparams) * repeat).
Proof.
  intros Hc Hm He. unfold Model.simulate_experiment.
  rewrite (after_bind_ok _ _ _ _ _
             (Simulatable_simulate_experiment_counts _ _ repeat _ _ Hc Hm He)).
  match goal with |- after ?rest ?s1 !! _ = _ =>
    assert (writes_only ["_call_count"] rest) as Hrest
  end.
  { apply writes_only_bind; [apply writes_only_lift|]. intros all_outcomes.
    apply writes_only_bind; [apply concrete_likelihood_writes|].
    intros probabilities. cbv zeta.
    apply writes_only_bind; [apply writes_only_lift|]. intros randnum.
    apply writes_only_bind; [apply writes_only_lift|]. intros outcomes.
    destruct (repeat =? 1); frame_steps. }
  etrans; [apply (Hrest _ "_sim_count"); by intros [=]%list_elem_of_singleton|].
  apply lookup_insert_eq.
Qed.

Lemma simulate_all_sim_count {E} (base : Simulatable.methods E) tensor calls s c :
  Forall simulate_call_batched calls →
  s !! "_sim_count" = Some c →
  simulate_all (Model.concrete base tensor) calls s !! "_sim_count" =
  Some (c + simulate_total calls).
Proof.
  intros Hcalls. revert s c.
  induction Hcalls as [|call calls [Hm He] _ IH]; intros s c Hc.
  - simpl. rewrite Hc. f_equal. lia.
  - unfold simulate_all in IH |- *. cbn [foldl].
    erewrite IH; [|by apply Model_simulate_experiment_sim_count].
    f_equal. unfold simulate_total. cbn [foldr]. lia.
Qed.

Lemma likelihood_all_call_count {E} (base : Simulatable.methods E) tensor calls s k :
  Forall likelihood_call_batched calls →
  s !! "_call_count" = Some k →
  likelihood_all (Model.concrete base tensor) calls s !! "_call_count" =
  Some (k + likelihood_total calls).
Proof.
  intros Hcalls. revert s k.
  induction Hcalls as [|call calls [Hm He] _ IH]; intros s k Hk.
  - simpl. rewrite Hk. f_equal. lia.
  - unfold likelihood_all in IH |- *. cbn [foldl].
    erewrite IH; last first.
    { unfold after.
      rewrite (concrete_likelihood_runs base tensor _ _ _ _ k Hk Hm He).
      apply lookup_insert_eq. }
    f_equal. unfold likelihood_total. cbn [foldr]. lia.
Qed.

(** ** An instance built by [Model.__init__] alone *)

Lemma model_only_sim_count :
  Simulatable.sim_count Examples.model_only =
  (Examples.model_only, Raise AttributeError).
Proof. by apply getattr_none. Qed.

Lemma model_only_simulate_experiment {E} (self : Model.methods E)
    rng modelparams (expparams : ndarray E) repeat :
  Model.simulate_experiment self rng modelparams expparams repeat
    Examples.model_only = (Examples.model_only, Raise AttributeError).
Proof.
  unfold Model.simulate_experiment.
  apply bind_raise. by apply Simulatable_simulate_experiment_missing.
Qed.

(** ** Stacking along a new leading axis *)

Lemma concatenate_stack {A} (pieces : list (ndarray A)) (tl : list nat) :
  pieces ≠ [] →
  Forall (λ b, shape b = 1%nat :: tl) pieces →
  np.concatenate pieces =
  Ok (mk_ndarray (length pieces :: tl) (concat (data <$> pieces))).
Proof.
  intros Hne Hall. unfold np.concatenate.
  destruct pieces as [|a rest]; [done|].
  pose proof (Forall_inv Hall) as Ha. rewrite Ha.
  assert (forallb (λ b : ndarray A, bool_decide (shape b ≠ [] ∧ tail (shape b) = tl))
            (a :: rest) = true) as ->.
  { apply forallb_forall. intros b Hb%list_elem_of_In.
    apply bool_decide_eq_true. rewrite Forall_forall in Hall.
    by rewrite (Hall b Hb). }
  do 3 f_equal. clear Hne Ha.
  induction Hall as [|b bs Hb _ IH]; [done|].
  cbn [foldr length]. by rewrite Hb, IH.
Qed.

Lemma slice_of_concat {A} (pieces : list (ndarray A)) (size i : nat) (a : ndarray A) :
  Forall (λ b, length (data b) = size) pieces →
  pieces !! i = Some a →
  take size (drop (i * size) (concat (data <$> pieces))) = data a.
Proof.
  intros Hall. revert i. induction Hall as [|b bs Hb _ IH]; intros i; [done|].
  cbn [fmap list_fmap concat]. destruct i as [|i]; cbn [lookup list_lookup].
  - intros [= ->]. rewrite Nat.mul_0_l, drop_0. by rewrite take_app_length'.
  - intros Hi. replace (S i * size)%nat with (length (data b) + i * size)%nat by lia.
    rewrite drop_app_add'; [|done]. by apply IH.
Qed.

(** ** One (model, experiment) pair *)

Lemma simulate_experiment_outcomes {E} (base : Simulatable.methods E) tensor
    rng modelparams expparams repeat s c k n t :
  s !! "_sim_count" = Some c →
  s !! "_call_count" = Some k →
  shape modelparams ≠ [] → shape expparams ≠ [] →
  Simulatable.n_outcomes base expparams = [n] →
  tensor (np.range n) modelparams expparams = Ok t →
  data t ≠ [] →
  0 ≤ repeat →
  ∃ s' ret,
    Model.simulate_experiment (Model.concrete base tensor) rng
      modelparams expparams repeat s = (s', Ok ret) ∧
    outcomes_of ret = drawn (np.cumsum t) <$> (rng <$> seq 0 (Z.to_nat repeat)) ∧
    ret = (if repeat =? 1 then Scalar (drawn (np.cumsum t) (rng 0%nat))
           else Array (outcomes_of ret)).
Proof.
  intros Hc Hk Hm He Hn Ht Hdata Hrep.
  eexists _, _. split.
  { by apply (Model_simulate_experiment_runs base tensor rng _ _ repeat s c k n t). }
  destruct (Z.eqb_spec repeat 1) as [->|_]; by split.
Qed.

Lemma single_pair_outcomes {E} (base : Simulatable.methods E) tensor
    rng modelparams expparams repeat s n t :
  single_pair base tensor modelparams expparams s n t →
  0 ≤ repeat →
  ∃ s' ret,
    Model.simulate_experiment (Model.concrete base tensor) rng
      modelparams expparams repeat s = (s', Ok ret) ∧
    outcomes_of ret = drawn (np.cumsum t) <$> (rng <$> seq 0 (Z.to_nat repeat)) ∧
    ret = (if repeat =? 1 then Scalar (drawn (np.cumsum t) (rng 0%nat))
           else Array (outcomes_of ret)).
Proof.
  intros [[c Hc] [k Hk] Hm He Hn Hpos Ht [Hshape Hwf]] Hrep.
  apply (simulate_experiment_outcomes base tensor rng _ _ repeat s c k n t);
    try done.
  - by rewrite Hm.
  - by rewrite He.
  - unfold np.wf in Hwf. rewrite Hshape in Hwf. simpl in Hwf.
    intros Hnil. rewrite Hnil in Hwf. simpl in Hwf. lia.
Qed.

Lemma single_pair_length {E} (base : Simulatable.methods E) tensor
    modelparams expparams s n t :
  single_pair base tensor modelparams expparams s n t →
  length (np.cumsum t) = n ∧ np.cumsum t = cdf_along_outcomes t 0 0.
Proof.
  intros Hpair. destruct (pair_tensor _ _ _ _ _ _ _ Hpair) as [Hshape Hwf].
  unfold cdf_along_outcomes.
  rewrite (outcome_axis_single t n) by done. split; [|done].
  unfold np.cumsum. rewrite length_cumsum_list.
  unfold np.wf in Hwf. rewrite Hshape in Hwf. simpl in Hwf. lia.
Qed.

(** * The claims *)

(** ** Instrumentation counters *)

(** C10: [Model.__init__] assigns [_call_count] and nothing else, and does
    not run [Simulatable.__init__].  On an instance built by
    [Model.__init__] alone the attribute [_sim_count] is missing: reading
    [sim_count] raises [AttributeError], and so does [simulate_experiment],
    the inherited body as well as the default of [Model], at its first
    statement and without changing the instance. *)
Theorem Model_init_leaves_sim_count_unset {E} (self : Model.methods E)
    rng modelparams (expparams : ndarray E) repeat :
  let s := after Model.__init__ ∅ in
  s = {[ "_call_count" := 0 ]} ∧
  s !! "_sim_count" = None ∧
  Simulatable.sim_count s = (s, Raise AttributeError) ∧
  Simulatable.simulate_experiment modelparams expparams repeat s
    = (s, Raise AttributeError) ∧
  Model.simulate_experiment self rng modelparams expparams repeat s
    = (s, Raise AttributeError).
Proof.
  cbv zeta. split; [reflexivity|]. split; [reflexivity|].
  split; [exact model_only_sim_count|]. split.
  - by apply Simulatable_simulate_experiment_missing.
  - apply model_only_simulate_experiment.
Qed.

(** C2, evaluated where it fails: one call of [simulate_experiment] with one
    model, one experiment and [repeat = 1] on an instance built by
    [Model.__init__].  The total the counter should hold is 1; the call
    raises, the instance is left as it was, and [sim_count] raises
    [AttributeError]. *)
Theorem sim_count_missing_on_Model_instance :
  let call := {| sim_rng := λ _, 0.5%float;
                 sim_modelparams := Examples.one_model;
                 sim_expparams := Examples.one_experiment;
                 sim_repeat := 1 |} in
  let s := simulate_all (Examples.two_outcome 0.25) [call] Examples.model_only in
  simulate_total [call] = 1 ∧
  Model.simulate_experiment (Examples.two_outcome 0.25) (sim_rng call)
    (sim_modelparams call) (sim_expparams call) (sim_repeat call)
    Examples.model_only = (Examples.model_only, Raise AttributeError) ∧
  s = Examples.model_only ∧
  Simulatable.sim_count s = (s, Raise AttributeError).
Proof.
  cbv zeta. unfold simulate_all, after.
  cbn [foldl sim_rng sim_modelparams sim_expparams sim_repeat].
  rewrite model_only_simulate_experiment.
  split; [reflexivity|]. split; [reflexivity|]. split; [reflexivity|].
  exact model_only_sim_count.
Qed.

(** On an instance whose class did run [Simulatable.__init__] the counter
    holds the total: after [k] calls of the default [simulate_experiment]
    on batches with a leading axis, [sim_count] is the sum of
    [n_models * n_experiments * repeat] over the calls, whether or not a
    call went on to raise after the increment. *)
Theorem sim_count_totals {E} (base : Simulatable.methods E) tensor
    (calls : list (simulate_call E)) (s0 : instance) :
  Forall simulate_call_batched calls →
  let s := simulate_all (Model.concrete base tensor) calls
             (after Simulatable.__init__ s0) in
  Simulatable.sim_count s = (s, Ok (simulate_total calls)).
Proof.
  intros Hcalls s. apply getattr_some.
  subst s. erewrite simulate_all_sim_count; [|done|apply lookup_insert_eq].
  f_equal.
Qed.

Lemma sim_count_totals_witness :
  let calls := [ {| sim_rng := λ _, 0.5%float;
                    sim_modelparams := Examples.two_models;
                    sim_expparams := Examples.one_experiment;
                    sim_repeat := 3 |};
                 {| sim_rng := λ _, 0.125%float;
                    sim_modelparams := Examples.one_model;
                    sim_expparams := Examples.two_experiments;
                    sim_repeat := 1 |} ] in
  let s := simulate_all (Examples.two_outcome 0.25) calls
             (after Simulatable.__init__ ∅) in
  Simulatable.sim_count s = (s, Ok 8).
Proof.
  intros calls.
  refine (sim_count_totals (Examples.constant_outcomes 2) _ calls ∅ _).
  repeat constructor; discriminate.
Defined.

(** C3: on an instance built by [Model.__init__], after [k] calls of
    [likelihood] on batches with a leading axis, [call_count] is the sum over
    the calls of [len(outcomes_i) * n_models_i * n_experiments_i], with
    [len(outcomes_i)] the length of the outcome array that call was given;
    the count starts from 0. *)
Theorem call_count_totals {E} (base : Simulatable.methods E) tensor
    (calls : list (likelihood_call E)) (s0 : instance) :
  Forall likelihood_call_batched calls →
  let s := likelihood_all (Model.concrete base tensor) calls
             (after Model.__init__ s0) in
  Model.call_count s = (s, Ok (likelihood_total calls)).
Proof.
  intros Hcalls s. apply getattr_some.
  subst s. erewrite likelihood_all_call_count; [|done|apply lookup_insert_eq].
  f_equal.
Qed.

(** A two-outcome model asked for one outcome, then for three outcome
    indices: the counter follows the lengths requested, 1 * 2 * 1 + 3 * 1 * 2. *)
Lemma call_count_totals_witness :
  let calls := [ {| lik_outcomes := [0];
                    lik_modelparams := Examples.two_models;
                    lik_expparams := Examples.one_experiment |};
                 {| lik_outcomes := [0; 1; 1];
                    lik_modelparams := Examples.one_model;
                    lik_expparams := Examples.two_experiments |} ] in
  let s := likelihood_all (Examples.two_outcome 0.25) calls Examples.model_only in
  Model.call_count s = (s, Ok 8).
Proof.
  intros calls.
  refine (call_count_totals (Examples.constant_outcomes 2) _ calls ∅ _).
  repeat constructor; discriminate.
Defined.

(** ** Validity of a single parameter vector *)

(** C4: for a parameter vector [v], [is_model_valid(v)] is entry 0 of
    [are_models_valid] applied to [v] as a batch of one row; it touches no
    attribute, and it consults nothing of the model but [are_models_valid]:
    two models that agree on one-row batches agree on [is_model_valid]. *)
Theorem is_model_valid_delegates {E} (self : Model.methods E) (v : list float)
    (s : instance) :
  Model.is_model_valid self (np.array1 v) s =
    (s, np.getitem0
          (Simulatable.are_models_valid self (mk_ndarray [1%nat; length v] v))) ∧
  ∀ other : Model.methods E,
    Simulatable.are_models_valid other (mk_ndarray [1%nat; length v] v) =
    Simulatable.are_models_valid self (mk_ndarray [1%nat; length v] v) →
    Model.is_model_valid other (np.array1 v) s =
    Model.is_model_valid self (np.array1 v) s.
Proof.
  assert (∀ m : Model.methods E,
            Model.is_model_valid m (np.array1 v) s =
            (s, np.getitem0
                  (Simulatable.are_models_valid m (mk_ndarray [1%nat; length v] v))))
    as Hrun by (intros m; reflexivity).
  split; [apply Hrun|]. intros other Hagree. by rewrite !Hrun, Hagree.
Qed.

(** On a model valid exactly when its first parameter is positive: a
    vector is judged by its one-row batch, and a zero-dimensional array is
    refused at the slice, before [are_models_valid] is reached. *)
Example is_model_valid_positive_first :
  let self := Model.concrete Examples.positive_first (λ _ _ _, Raise ValueError) in
  Model.is_model_valid self (np.array1 [0.5; -1]%float) ∅ = (∅, Ok true) ∧
  Model.is_model_valid self (np.array1 [-0.5; 1]%float) ∅ = (∅, Ok false) ∧
  Model.is_model_valid self (mk_ndarray [] [0.5%float]) ∅ = (∅, Raise IndexError).
Proof. cbv zeta. repeat split; vm_compute; reflexivity. Qed.

(** ** The two-outcome helper *)

(** C5, as the code has it: for a non-empty outcome array, the result
    stacks, along a new leading axis, [pr0] where the outcome is 0 and
    [1 - pr0] elsewhere; [[0]] gives [pr0] under a leading axis of size 1 and
    [[1]] gives [1 - pr0]; evaluating it inside a method leaves every
    attribute, the counters included, as it was. *)
Theorem pr0_to_likelihood_array_slices (outcomes : list Z) (pr0 : ndarray float) :
  outcomes ≠ [] →
  np.wf pr0 →
  (∃ L, Model.pr0_to_likelihood_array outcomes pr0 = Ok L ∧
        shape L = length outcomes :: shape pr0 ∧
        ∀ i outcome, outcomes !! i = Some outcome →
          np.getitem L i = Ok (if outcome =? 0 then pr0 else np.one_minus pr0)) ∧
  Model.pr0_to_likelihood_array [0] pr0 = Ok (np.newaxis pr0) ∧
  Model.pr0_to_likelihood_array [1] pr0 = Ok (np.newaxis (np.one_minus pr0)) ∧
  ∀ s : instance, after (lift (Model.pr0_to_likelihood_array outcomes pr0)) s = s.
Proof.
  intros Hne Hwf.
  set (piece := λ outcome : Z,
         if outcome =? 0 then np.newaxis pr0 else np.one_minus (np.newaxis pr0)).
  assert (∀ os, os ≠ [] →
            Model.pr0_to_likelihood_array os pr0 =
            Ok (mk_ndarray (length os :: shape pr0) (concat (data <$> (piece <$> os)))))
    as Hstack.
  { intros os Hos. unfold Model.pr0_to_likelihood_array. cbv zeta.
    fold piece. rewrite (concatenate_stack _ (shape pr0)).
    - by rewrite length_fmap.
    - by destruct os.
    - apply Forall_fmap, Forall_forall. intros o _. unfold piece, compose.
      by destruct (o =? 0). }
  split; [|split; [|split]].
  - eexists. split; [by apply Hstack|]. split; [done|].
    intros i outcome Hi. unfold np.getitem. cbn [shape data].
    apply lookup_lt_Some in Hi as Hlt.
    destruct (Nat.ltb_spec i (length outcomes)) as [_|?]; [|lia].
    rewrite (slice_of_concat _ _ _ (piece outcome)).
    + unfold piece. destruct pr0 as [dims xs]. by destruct (outcome =? 0).
    + apply Forall_fmap, Forall_forall. intros o _. unfold piece, compose.
      destruct (o =? 0); cbn [np.newaxis np.one_minus data shape].
      * exact Hwf.
      * rewrite length_fmap. exact Hwf.
    + by rewrite list_lookup_fmap, Hi.
  - rewrite Hstack by done. cbn. rewrite app_nil_r. reflexivity.
  - rewrite Hstack by done. cbn. rewrite app_nil_r. reflexivity.
  - reflexivity.
Qed.

Lemma pr0_to_likelihood_array_slices_witness :
  ∃ L, Model.pr0_to_likelihood_array [0; 1; 5]
         (mk_ndarray [1; 2]%nat [0.25; 0.5]%float) = Ok L ∧
       shape L = [3; 1; 2]%nat ∧
       np.getitem L 2 = Ok (mk_ndarray [1; 2]%nat [0.75; 0.5]%float).
Proof.
  destruct (pr0_to_likelihood_array_slices [0; 1; 5]
              (mk_ndarray [1; 2]%nat [0.25; 0.5]%float))
    as [(L & HL & Hshape & Hslices) _]; [discriminate|reflexivity|].
  exists L. split; [exact HL|]. split; [exact Hshape|].
  exact (Hslices 2%nat 5 eq_refl).
Defined.

(** C5 fails on the empty outcome array: the list handed to
    [np.concatenate] is empty and numpy raises [ValueError]. *)
Lemma pr0_to_likelihood_array_no_outcomes :
  Model.pr0_to_likelihood_array [] (mk_ndarray [1; 2]%nat [0.25; 0.5]%float)
  = Raise ValueError.
Proof. reflexivity. Qed.

(** ** What a call of [simulate_experiment] may change *)



(** ** The outcome range handed to [likelihood] *)

(** Line 156 unfolded: [is_n_outcomes_constant] is false and is not
    consulted, and the array [n_outcomes(expparams)] goes to [np.arange] as
    it is.  When it has the single entry [n], [likelihood] is called on the
    outcomes [0 .. n-1]; when it has any other number of entries the call
    is the [sim_count] increment followed by [TypeError]. *)
Lemma simulate_experiment_outcome_range {E} (self : Model.methods E)
    rng modelparams (expparams : ndarray E) repeat :
  Simulatable.is_n_outcomes_constant = false ∧
  (∀ n, Simulatable.n_outcomes self expparams = [n] →
     Model.simulate_experiment self rng modelparams expparams repeat =
     (Simulatable.simulate_experiment modelparams expparams repeat ;;
      probabilities ← Model.self_likelihood self (np.range n) modelparams expparams;
      randnum ← lift (np.random_random rng repeat);
      outcomes ← lift (np.argmax_axis1
                         (np.greater (np.cumsum probabilities) randnum));
      if repeat =? 1
      then k ← lift (np.getitem0 outcomes); mret (Scalar k)
      else mret (Array outcomes))) ∧
  (length (Simulatable.n_outcomes self expparams) ≠ 1%nat →
     Model.simulate_experiment self rng modelparams expparams repeat =
     (Simulatable.simulate_experiment modelparams expparams repeat ;;
      mthrow TypeError)).
Proof.
  split; [reflexivity|]. unfold Model.simulate_experiment. split.
  - intros n ->. reflexivity.
  - intros Hlen.
    destruct (Simulatable.n_outcomes self expparams) as [|n [|n' counts]];
      [reflexivity|done|reflexivity].
Qed.

(** C7, evaluated where it fails: one model and two experiments of a
    two-outcome model, on an instance holding both counters.  The model
    reports one count per experiment, [[2; 2]], as the docstring of
    [n_outcomes] asks; the batch should run over the outcomes [0 .. 1] of
    the first experiment, but [np.arange] raises [TypeError] on the
    two-entry array.  Line 154 has by then added [1 * 2 * 1] to
    [sim_count] for simulations that never ran, and [likelihood] was not
    called: [call_count] is still 0. *)
Theorem simulate_experiment_two_experiments :
  let s' := <["_sim_count" := 2]> Examples.counted in
  Simulatable.n_outcomes (Examples.two_outcome 0.25) Examples.two_experiments
    = [2; 2]%nat ∧
  Model.simulate_experiment (Examples.two_outcome 0.25) (λ _, 0.5%float)
    Examples.one_model Examples.two_experiments 1 Examples.counted
    = (s', Raise TypeError) ∧
  Model.call_count s' = (s', Ok 0).
Proof. cbv zeta. repeat split; vm_compute; reflexivity. Qed.

(** ** The default simulator on one (model, experiment) pair *)

(** C8, evaluated where it fails: one model and one experiment of a
    two-outcome model, on an instance built by [Model.__init__] alone.  With
    [repeat = 1] the call should return a scalar and with [repeat = 3] an
    array of three outcomes; both calls raise [AttributeError] at the
    [_sim_count] increment and return nothing.  On an instance whose class
    ran both initialisers the same calls return the scalar [1] and the
    array [[1; 1; 1]]. *)
Theorem simulate_experiment_raises_on_Model_instance :
  let run s repeat :=
    Model.simulate_experiment (Examples.two_outcome 0.25) (λ _, 0.5%float)
      Examples.one_model Examples.one_experiment repeat s in
  run Examples.model_only 1 = (Examples.model_only, Raise AttributeError) ∧
  run Examples.model_only 3 = (Examples.model_only, Raise AttributeError) ∧
  (run Examples.counted 1).2 = Ok (Scalar 1) ∧
  (run Examples.counted 3).2 = Ok (Array [1; 1; 1]%nat).
Proof.
  cbv beta zeta. rewrite !model_only_simulate_experiment.
  repeat split; vm_compute; reflexivity.
Qed.

(** On an instance that holds both counters, the default
    [simulate_experiment] on a single (model, experiment) pair returns a
    scalar outcome when [repeat = 1], and an array of [repeat] outcomes
    when [repeat > 1]. *)
Theorem simulate_experiment_return_shape {E} (base : Simulatable.methods E) tensor
    rng modelparams (expparams : ndarray E) repeat s n t :
  single_pair base tensor modelparams expparams s n t →
  let run := Model.simulate_experiment (Model.concrete base tensor) rng
               modelparams expparams repeat s in
  (repeat = 1 → ∃ outcome, run.2 = Ok (Scalar outcome)) ∧
  (1 < repeat → ∃ outcomes, run.2 = Ok (Array outcomes) ∧
                            length outcomes = Z.to_nat repeat).
Proof.
  intros Hpair run. subst run. split.
  - intros ->.
    destruct (single_pair_outcomes base tensor rng _ _ 1 s n t Hpair)
      as (s' & ret & -> & _ & ->); [lia|]. by eexists.
  - intros Hrep.
    destruct (single_pair_outcomes base tensor rng _ _ repeat s n t Hpair)
      as (s' & ret & -> & Hout & ->); [lia|].
    destruct (Z.eqb_spec repeat 1) as [?|_]; [lia|].
    eexists. split; [done|].
    by rewrite Hout, !length_fmap, length_seq.
Qed.

Lemma single_pair_example :
  single_pair (Examples.constant_outcomes 2)
    (λ outcomes modelparams expparams,
       Model.pr0_to_likelihood_array outcomes
         (Examples.full [leading modelparams; leading expparams] 0.25))
    Examples.one_model Examples.one_experiment Examples.counted 2
    (mk_ndarray [2; 1; 1]%nat [0.25; 0.75]%float).
Proof.
  constructor; try reflexivity.
  - by eexists.
  - by eexists.
  - lia.
  - by split.
Defined.

Lemma simulate_experiment_return_shape_witness :
  let run repeat :=
    Model.simulate_experiment (Examples.two_outcome 0.25) (λ _, 0.5%float)
      Examples.one_model Examples.one_experiment repeat Examples.counted in
  (∃ outcome, (run 1).2 = Ok (Scalar outcome)) ∧
  (∃ outcomes, (run 3).2 = Ok (Array outcomes) ∧ length outcomes = 3%nat).
Proof.
  intros run. split.
  - exact (proj1 (simulate_experiment_return_shape _ _ (λ _, 0.5%float) _ _ 1 _ _ _
                    single_pair_example) eq_refl).
  - exact (proj2 (simulate_experiment_return_shape _ _ (λ _, 0.5%float) _ _ 3 _ _ _
                    single_pair_example) eq_refl).
Defined.

(** On an instance that holds both counters and a single (model,
    experiment) pair, the running sum the code forms is the cumulative sum
    along the outcome axis, and for each draw that some cumulative
    probability strictly exceeds, the returned outcome is the smallest
    outcome index whose cumulative probability strictly exceeds the
    draw. *)
Theorem simulate_experiment_inverse_cdf {E} (base : Simulatable.methods E) tensor
    rng modelparams (expparams : ndarray E) repeat s n t :
  single_pair base tensor modelparams expparams s n t →
  0 ≤ repeat →
  np.cumsum t = cdf_along_outcomes t 0 0 ∧
  ∃ s' ret,
    Model.simulate_experiment (Model.concrete base tensor) rng
      modelparams expparams repeat s = (s', Ok ret) ∧
    length (outcomes_of ret) = Z.to_nat repeat ∧
    ∀ r outcome,
      outcomes_of ret !! r = Some outcome →
      exceeded (cdf_along_outcomes t 0 0) (rng r) →
      first_exceeding (cdf_along_outcomes t 0 0) (rng r) outcome ∧
      (outcome < n)%nat.
Proof.
  intros Hpair Hrep.
  destruct (single_pair_length _ _ _ _ _ _ _ Hpair) as [Hlen Hcdf].
  split; [exact Hcdf|]. rewrite <- Hcdf.
  destruct (single_pair_outcomes base tensor rng _ _ repeat s n t Hpair Hrep)
    as (s' & ret & Hrun & Hout & _).
  exists s', ret. split; [exact Hrun|]. rewrite Hout. split.
  { by rewrite !length_fmap, length_seq. }
  intros r outcome Hr Hex.
  rewrite <- list_fmap_compose, list_lookup_fmap in Hr.
  destruct (seq 0 (Z.to_nat repeat) !! r) as [r'|] eqn:Hseq; [|done].
  apply lookup_seq in Hseq as [-> _]. simpl in Hr. injection Hr as <-.
  split; [by apply drawn_first_exceeding|].
  rewrite <- Hlen. apply drawn_lt. intros Hnil. rewrite Hnil in Hlen.
  pose proof (pair_has_outcome _ _ _ _ _ _ _ Hpair). simpl in Hlen. lia.
Qed.

Lemma simulate_experiment_inverse_cdf_witness :
  let rng := λ r : nat, if r is O then 0.125%float else 0.5%float in
  let cdf := cdf_along_outcomes (mk_ndarray [2; 1; 1]%nat [0.25; 0.75]%float) 0 0 in
  np.cumsum (mk_ndarray [2; 1; 1]%nat [0.25; 0.75]%float) = cdf ∧
  ∃ s' ret,
    Model.simulate_experiment (Examples.two_outcome 0.25) rng
      Examples.one_model Examples.one_experiment 2 Examples.counted = (s', Ok ret) ∧
    length (outcomes_of ret) = 2%nat ∧
    ∀ r outcome,
      outcomes_of ret !! r = Some outcome →
      exceeded cdf (rng r) →
      first_exceeding cdf (rng r) outcome ∧ (outcome < 2)%nat.
Proof.
  intros rng cdf.
  refine (simulate_experiment_inverse_cdf _ _ rng _ _ 2 _ _ _ single_pair_example _).
  lia.
Defined.

(** C1, evaluated where it fails: two models and one experiment of a
    two-outcome model with [pr0 = 1/4], one draw equal to [7/8], on an
    instance holding both counters.  Along the outcome axis either model
    has the cumulative probabilities [[1/4; 1]], and the smallest outcome
    index above the draw is 1.  The code sums without an axis: the tensor
    flattens to [[1/4; 1/4; 3/4; 3/4]], the running sum is
    [[1/4; 1/2; 5/4; 2]], and the call returns 2, which is none of the
    outcomes [0 .. 1] that line 156 asked [likelihood] for; it returns
    that one value after adding 2 simulations to [sim_count]. *)
Theorem simulate_experiment_two_models :
  let t := mk_ndarray [2; 2; 1]%nat [0.25; 0.25; 0.75; 0.75]%float in
  Simulatable.n_outcomes (Examples.two_outcome 0.25) Examples.one_experiment
    = [2%nat] ∧
  Model.pr0_to_likelihood_array (np.range 2) (Examples.full [2; 1]%nat 0.25) = Ok t ∧
  Model.simulate_experiment (Examples.two_outcome 0.25) (λ _, 0.875%float)
    Examples.two_models Examples.one_experiment 1 Examples.counted
    = (<["_call_count" := 4]> (<["_sim_count" := 2]> Examples.counted),
       Ok (Scalar 2)) ∧
  np.cumsum t = [0.25; 0.5; 1.25; 2]%float ∧
  cdf_along_outcomes t 0 0 = [0.25; 1]%float ∧
  cdf_along_outcomes t 1 0 = [0.25; 1]%float ∧
  first_exceeding [0.25; 1]%float 0.875 1.
Proof.
  cbv zeta. do 6 (split; [vm_compute; reflexivity|]). split.
  - exists 1%float. by split.
  - intros [|j] c Hj; [|lia]. by intros [= <-].
Qed.

(** C9, as the code has it: nothing is checked and nothing is raised.  On a
    single (model, experiment) pair every returned outcome is a valid index
    of the model, and a draw that no cumulative probability exceeds returns
    outcome 0. *)
Theorem simulate_experiment_unreached_cdf {E} (base : Simulatable.methods E) tensor
    rng modelparams (expparams : ndarray E) repeat s n t :
  single_pair base tensor modelparams expparams s n t →
  0 ≤ repeat →
  ∃ s' ret,
    Model.simulate_experiment (Model.concrete base tensor) rng
      modelparams expparams repeat s = (s', Ok ret) ∧
    Forall (λ outcome, (outcome < n)%nat) (outcomes_of ret) ∧
    ∀ r, (r < Z.to_nat repeat)%nat →
         ¬ exceeded (np.cumsum t) (rng r) →
         outcomes_of ret !! r = Some 0%nat.
Proof.
  intros Hpair Hrep.
  destruct (single_pair_length _ _ _ _ _ _ _ Hpair) as [Hlen _].
  destruct (single_pair_outcomes base tensor rng _ _ repeat s n t Hpair Hrep)
    as (s' & ret & Hrun & Hout & _).
  exists s', ret. split; [exact Hrun|]. rewrite Hout. split.
  - apply Forall_fmap, Forall_forall. intros u _. unfold compose.
    rewrite <- Hlen. apply drawn_lt. intros Hnil. rewrite Hnil in Hlen.
    pose proof (pair_has_outcome _ _ _ _ _ _ _ Hpair). simpl in Hlen. lia.
  - intros r Hr Hno.
    rewrite <- list_fmap_compose, list_lookup_fmap, lookup_seq_lt by done.
    simpl. by rewrite drawn_not_exceeded.
Qed.

Lemma single_pair_deficient :
  single_pair (Examples.constant_outcomes 2)
    (λ outcomes modelparams expparams,
       Ok (Examples.full [length outcomes; leading modelparams; leading expparams] 0.25))
    Examples.one_model Examples.one_experiment Examples.counted 2
    (mk_ndarray [2; 1; 1]%nat [0.25; 0.25]%float).
Proof.
  constructor; try reflexivity.
  - by eexists.
  - by eexists.
  - lia.
  - by split.
Defined.

Lemma simulate_experiment_unreached_cdf_witness :
  let rng := λ _ : nat, 0.75%float in
  ∃ s' ret,
    Model.simulate_experiment Examples.deficient rng
      Examples.one_model Examples.one_experiment 1 Examples.counted = (s', Ok ret) ∧
    Forall (λ outcome, (outcome < 2)%nat) (outcomes_of ret) ∧
    ∀ r, (r < 1)%nat →
         ¬ exceeded (np.cumsum (mk_ndarray [2; 1; 1]%nat [0.25; 0.25]%float)) (rng r) →
         outcomes_of ret !! r = Some 0%nat.
Proof.
  intros rng.
  refine (simulate_experiment_unreached_cdf _ _ rng _ _ 1 _ _ _ single_pair_deficient _).
  lia.
Defined.

(** C9 fails on a likelihood that gives both outcomes probability [1/4]:
    the cumulative probabilities are [[1/4; 1/2]], the draw [3/4] is above
    both, and the call returns the scalar outcome 0, a valid index of the
    two-outcome model, without raising. *)
Lemma simulate_experiment_deficient_likelihood :
  let t := mk_ndarray [2; 1; 1]%nat [0.25; 0.25]%float in
  Model.self_likelihood Examples.deficient (np.range 2)
    Examples.one_model Examples.one_experiment Examples.counted
    = (<["_call_count" := 2]> Examples.counted, Ok t) ∧
  np.cumsum t = [0.25; 0.5]%float ∧
  Simulatable.n_outcomes Examples.deficient Examples.one_experiment = [2%nat] ∧
  Model.simulate_experiment Examples.deficient (λ _, 0.75%float)
    Examples.one_model Examples.one_experiment 1 Examples.counted
    = (<["_call_count" := 2]> (<["_sim_count" := 1]> Examples.counted),
       Ok (Scalar 0)).
Proof. cbv zeta. repeat split; vm_compute; reflexivity. Qed.

(** * Further properties of the code *)

(** ** Arrays without a leading axis *)

Lemma shape0_zero_dimensional {A} (a : ndarray A) :
  shape a = [] → np.shape0 a = Raise IndexError.
Proof. unfold np.shape0. by intros ->. Qed.

Lemma Simulatable_simulate_experiment_unbatched {E}
    (modelparams : ndarray float) (expparams : ndarray E) repeat s c :
  s !! "_sim_count" = Some c →
  shape modelparams = [] ∨ shape expparams = [] →
  Simulatable.simulate_experiment modelparams expparams repeat s =
  (s, Raise IndexError).
Proof.
  intros Hc [Hm|He]; unfold Simulatable.simulate_experiment;
    rewrite (bind_ok _ _ _ _ _ (getattr_some _ _ _ Hc)).
  - by rewrite (shape0_zero_dimensional _ Hm).
  - rewrite (shape0_zero_dimensional _ He). unfold np.shape0.
    by destruct (shape modelparams).
Qed.

(** [simulate_experiment] on an array of rank zero: [shape[0]] raises
    [IndexError] before the counter is assigned, so the instance is left as
    it was; the default of [Model] stops there and never reaches
    [likelihood]. *)
Theorem simulate_experiment_zero_dimensional {E} (self : Model.methods E)
    rng modelparams (expparams : ndarray E) repeat s c :
  s !! "_sim_count" = Some c →
  shape modelparams = [] ∨ shape expparams = [] →
  Simulatable.simulate_experiment modelparams expparams repeat s
    = (s, Raise IndexError) ∧
  Model.simulate_experiment self rng modelparams expparams repeat s
    = (s, Raise IndexError).
Proof.
  intros Hc Hshape.
  pose proof (Simulatable_simulate_experiment_unbatched
                modelparams expparams repeat s c Hc Hshape) as Hbase.
  split; [exact Hbase|].
  unfold Model.simulate_experiment. by apply bind_raise.
Qed.

Lemma simulate_experiment_zero_dimensional_witness :
  Simulatable.simulate_experiment Edge.zero_dimensional Examples.one_experiment 1
    Examples.counted = (Examples.counted, Raise IndexError) ∧
  Model.simulate_experiment (Examples.two_outcome 0.25) (λ _, 0.5%float)
    Edge.zero_dimensional Examples.one_experiment 1 Examples.counted
    = (Examples.counted, Raise IndexError).
Proof.
  refine (simulate_experiment_zero_dimensional _ _ _ _ 1 _ 0 _ _).
  - reflexivity.
  - by left.
Defined.

Lemma Model_likelihood_unbatched {E} (base : Simulatable.methods E) tensor
    outcomes modelparams (expparams : ndarray E) s k :
  s !! "_call_count" = Some k →
  shape modelparams = [] ∨ shape expparams = [] →
  Model.likelihood outcomes modelparams expparams s = (s, Raise IndexError) ∧
  Model.self_likelihood (Model.concrete base tensor) outcomes modelparams expparams s
    = (s, Raise IndexError).
Proof.
  intros Hk Hshape.
  assert (Model.likelihood outcomes modelparams expparams s = (s, Raise IndexError))
    as Hbase.
  { destruct Hshape as [Hm|He]; unfold Model.likelihood;
      rewrite (bind_ok _ _ _ _ _ (getattr_some _ _ _ Hk)).
    - by rewrite (shape0_zero_dimensional _ Hm).
    - rewrite (shape0_zero_dimensional _ He). unfold np.shape0.
      by destruct (shape modelparams). }
  split; [exact Hbase|]. simpl. by apply bind_raise.
Qed.

(** [likelihood] on an array of rank zero: [IndexError], the counter is not
    assigned and the tensor of the concrete class is never computed. *)
Theorem likelihood_zero_dimensional {E} (base : Simulatable.methods E) tensor
    outcomes modelparams (expparams : ndarray E) s k :
  s !! "_call_count" = Some k →
  shape modelparams = [] ∨ shape expparams = [] →
  Model.likelihood outcomes modelparams expparams s = (s, Raise IndexError) ∧
  Model.self_likelihood (Model.concrete base tensor) outcomes modelparams expparams s
    = (s, Raise IndexError).
Proof. apply Model_likelihood_unbatched. Qed.

Lemma likelihood_zero_dimensional_witness :
  Model.likelihood [0; 1] Edge.zero_dimensional Examples.one_experiment
    Examples.model_only = (Examples.model_only, Raise IndexError) ∧
  Model.self_likelihood (Examples.two_outcome 0.25) [0; 1]
    Edge.zero_dimensional Examples.one_experiment Examples.model_only
    = (Examples.model_only, Raise IndexError).
Proof.
  refine (likelihood_zero_dimensional _ _ _ _ _ _ 0 _ _).
  - reflexivity.
  - by left.
Defined.

(** ** What [likelihood] may change *)

(** A [likelihood] call of a concrete class assigns no attribute other than
    [_call_count], so it never moves [sim_count]; the counter it holds never
    goes down; and on an instance without the counter nothing is stored. *)
Theorem likelihood_only_raises_call_count {E} (base : Simulatable.methods E) tensor
    outcomes modelparams (expparams : ndarray E) (s : instance) :
  let s' := after (Model.self_likelihood (Model.concrete base tensor)
                     outcomes modelparams expparams) s in
  unchanged_except ["_call_count"] s s' ∧
  (∀ k, s !! "_call_count" = Some k →
        ∃ k', s' !! "_call_count" = Some k' ∧ k ≤ k') ∧
  (s !! "_call_count" = None → s' = s).
Proof.
  intros s'. subst s'. split; [apply concrete_likelihood_writes|]. split.
  - intros k Hk.
    destruct (shape modelparams) as [|n_models mdims] eqn:Hm;
      [|destruct (shape expparams) as [|n_experiments edims] eqn:He].
    + exists k. split; [|lia]. unfold after.
      rewrite (proj2 (Model_likelihood_unbatched base tensor outcomes _ _ s k Hk
                        (or_introl Hm))). exact Hk.
    + exists k. split; [|lia]. unfold after.
      rewrite (proj2 (Model_likelihood_unbatched base tensor outcomes _ _ s k Hk
                        (or_intror He))). exact Hk.
    + eexists. unfold after.
      rewrite (concrete_likelihood_runs base tensor outcomes _ _ s k Hk)
        by (by rewrite ?Hm, ?He).
      split; [apply lookup_insert_eq|]. lia.
  - intros Hnone. unfold after. simpl.
    erewrite bind_raise; [done|].
    unfold Model.likelihood. apply bind_raise, getattr_none, Hnone.
Qed.

(** ** The default simulator past its two counter updates *)

Lemma Model_simulate_experiment_sampling {E} (base : Simulatable.methods E) tensor
    rng modelparams expparams repeat s c k n t :
  s !! "_sim_count" = Some c →
  s !! "_call_count" = Some k →
  shape modelparams ≠ [] → shape expparams ≠ [] →
  Simulatable.n_outcomes base expparams = [n] →
  tensor (np.range n) modelparams expparams = Ok t →
  Model.simulate_experiment (Model.concrete base tensor) rng
    modelparams expparams repeat s =
  (randnum ← lift (np.random_random rng repeat);
   outcomes ← lift (np.argmax_axis1 (np.greater (np.cumsum t) randnum));
   if repeat =? 1
   then outcome ← lift (np.getitem0 outcomes); mret (Scalar outcome)
   else mret (Array outcomes))
    (<["_call_count" :=
         k + Z.of_nat n * Z.of_nat (leading modelparams) * Z.of_nat (leading expparams)]>
       (<["_sim_count" :=
            c + Z.of_nat (leading modelparams) * Z.of_nat (leading expparams) * repeat]> s)).
Proof.
  intros Hc Hk Hm He Hn Ht. unfold Model.simulate_experiment.
  rewrite (bind_ok _ _ _ _ _
             (Simulatable_simulate_experiment_counts _ _ repeat _ _ Hc Hm He)).
  cbn [Model.simulatable Model.concrete]. rewrite Hn. cbn [np.arange].
  rewrite (bind_ok (lift (Ok (np.range n))) _ _ _ _ eq_refl).
  erewrite bind_ok; [reflexivity|].
  rewrite (concrete_likelihood_runs base tensor (np.range n) _ _ _ k);
    [|by rewrite lookup_insert_ne|done..].
  rewrite Ht. unfold np.range. rewrite length_fmap, length_seq. reflexivity.
Qed.

(** [repeat < 0]: [np.random.random((repeat, 1))] raises [ValueError], but
    only after both counters were assigned; [sim_count] has gone down by
    [n_models * n_experiments * |repeat|] and [call_count] up by
    [n * n_models * n_experiments]. *)
Theorem simulate_experiment_negative_repeat {E} (base : Simulatable.methods E) tensor
    rng modelparams (expparams : ndarray E) repeat s c k n t :
  s !! "_sim_count" = Some c →
  s !! "_call_count" = Some k →
  shape modelparams ≠ [] → shape expparams ≠ [] →
  Simulatable.n_outcomes base expparams = [n] →
  tensor (np.range n) modelparams expparams = Ok t →
  repeat < 0 →
  Model.simulate_experiment (Model.concrete base tensor) rng
    modelparams expparams repeat s =
  (<["_call_count" :=
       k + Z.of_nat n * Z.of_nat (leading modelparams) * Z.of_nat (leading expparams)]>
     (<["_sim_count" :=
          c - Z.of_nat (leading modelparams) * Z.of_nat (leading expparams)
              * Z.abs repeat]> s),
   Raise ValueError).
Proof.
  intros Hc Hk Hm He Hn Ht Hrep.
  rewrite (Model_simulate_experiment_sampling base tensor rng _ _ repeat s c k n t)
    by done.
  unfold np.random_random. destruct (Z.ltb_spec repeat 0) as [_|?]; [|lia].
  replace (c - Z.of_nat (leading modelparams) * Z.of_nat (leading expparams)
               * Z.abs repeat)
    with (c + Z.of_nat (leading modelparams) * Z.of_nat (leading expparams) * repeat)
    by lia.
  reflexivity.
Qed.

Lemma simulate_experiment_negative_repeat_witness :
  Model.simulate_experiment (Examples.two_outcome 0.25) (λ _, 0.5%float)
    Examples.two_models Examples.one_experiment (-3) Examples.counted =
  (<["_call_count" := 4]> (<["_sim_count" := -6]> Examples.counted),
   Raise ValueError).
Proof.
  refine (simulate_experiment_negative_repeat (Examples.constant_outcomes 2) _
            (λ _, 0.5%float) Examples.two_models Examples.one_experiment (-3)
            Examples.counted 0 0 2 _ _ _ _ _ _ _ _);
    try reflexivity; try discriminate; lia.
Defined.

(** [repeat = 0]: no draw is taken and the call returns the empty array, not
    a scalar and not an error; [sim_count] keeps its value and
    [call_count] still goes up by [n * n_models * n_experiments]. *)
Theorem simulate_experiment_zero_repeat {E} (base : Simulatable.methods E) tensor
    rng modelparams (expparams : ndarray E) s c k n t :
  s !! "_sim_count" = Some c →
  s !! "_call_count" = Some k →
  shape modelparams ≠ [] → shape expparams ≠ [] →
  Simulatable.n_outcomes base expparams = [n] →
  tensor (np.range n) modelparams expparams = Ok t →
  data t ≠ [] →
  Model.simulate_experiment (Model.concrete base tensor) rng
    modelparams expparams 0 s =
  (<["_call_count" :=
       k + Z.of_nat n * Z.of_nat (leading modelparams) * Z.of_nat (leading expparams)]>
     (<["_sim_count" := c]> s),
   Ok (Array [])).
Proof.
  intros Hc Hk Hm He Hn Ht Hdata.
  rewrite (Model_simulate_experiment_runs base tensor rng _ _ 0 s c k n t) by done.
  by rewrite Z.mul_0_r, Z.add_0_r.
Qed.

Lemma simulate_experiment_zero_repeat_witness :
  Model.simulate_experiment (Examples.two_outcome 0.25) (λ _, 0.5%float)
    Examples.two_models Examples.one_experiment 0 Examples.counted =
  (<["_call_count" := 4]> (<["_sim_count" := 0]> Examples.counted), Ok (Array [])).
Proof.
  refine (simulate_experiment_zero_repeat (Examples.constant_outcomes 2) _
            (λ _, 0.5%float) Examples.two_models Examples.one_experiment
            Examples.counted 0 0 2 _ _ _ _ _ _ _ _);
    try reflexivity; discriminate.
Defined.

(** An empty likelihood tensor, as from a model that reports zero outcomes
    or a batch of zero models: [np.argmax] refuses the empty axis and the
    call raises [ValueError] for every [repeat >= 0], [repeat = 0] included,
    once both counters were assigned. *)
Theorem simulate_experiment_empty_tensor {E} (base : Simulatable.methods E) tensor
    rng modelparams (expparams : ndarray E) repeat s c k n t :
  s !! "_sim_count" = Some c →
  s !! "_call_count" = Some k →
  shape modelparams ≠ [] → shape expparams ≠ [] →
  Simulatable.n_outcomes base expparams = [n] →
  tensor (np.range n) modelparams expparams = Ok t →
  data t = [] →
  0 ≤ repeat →
  Model.simulate_experiment (Model.concrete base tensor) rng
    modelparams expparams repeat s =
  (<["_call_count" :=
       k + Z.of_nat n * Z.of_nat (leading modelparams) * Z.of_nat (leading expparams)]>
     (<["_sim_count" :=
          c + Z.of_nat (leading modelparams) * Z.of_nat (leading expparams) * repeat]> s),
   Raise ValueError).
Proof.
  intros Hc Hk Hm He Hn Ht Hdata Hrep.
  rewrite (Model_simulate_experiment_sampling base tensor rng _ _ repeat s c k n t)
    by done.
  unfold np.random_random. destruct (Z.ltb_spec repeat 0) as [?|_]; [lia|].
  rewrite (bind_ok (lift (Ok _)) _ _ _ _ eq_refl).
  unfold np.cumsum. rewrite Hdata. reflexivity.
Qed.

Lemma simulate_experiment_empty_tensor_witness :
  Model.simulate_experiment
    (Model.concrete (Examples.constant_outcomes 0)
       (λ outcomes modelparams expparams,
          Ok (Examples.full
                [length outcomes; leading modelparams; leading expparams] 0.25)))
    (λ _, 0.5%float) Examples.one_model Examples.one_experiment 2 Examples.counted =
  (<["_call_count" := 0]> (<["_sim_count" := 2]> Examples.counted),
   Raise ValueError).
Proof.
  refine (simulate_experiment_empty_tensor (Examples.constant_outcomes 0) _
            (λ _, 0.5%float) Examples.one_model Examples.one_experiment 2
            Examples.counted 0 0 0 (mk_ndarray [0; 1; 1]%nat []) _ _ _ _ _ _ _ _);
    try reflexivity; try discriminate; lia.
Defined.

(** ** Batches of any size *)

(** For a batch of any size the call returns [repeat] values, one per draw
    and not one per (model, experiment) pair.  Each is a position in the
    flattened tensor, below [len(probabilities.flat)]: the first position
    whose running sum over the flattened tensor strictly exceeds the draw,
    and position 0 when none does. *)
Theorem simulate_experiment_flat_index {E} (base : Simulatable.methods E) tensor
    rng modelparams (expparams : ndarray E) repeat s c k n t :
  s !! "_sim_count" = Some c →
  s !! "_call_count" = Some k →
  shape modelparams ≠ [] → shape expparams ≠ [] →
  Simulatable.n_outcomes base expparams = [n] →
  tensor (np.range n) modelparams expparams = Ok t →
  data t ≠ [] →
  0 ≤ repeat →
  ∃ s' ret,
    Model.simulate_experiment (Model.concrete base tensor) rng
      modelparams expparams repeat s = (s', Ok ret) ∧
    length (outcomes_of ret) = Z.to_nat repeat ∧
    ∀ r v, outcomes_of ret !! r = Some v →
      (v < length (data t))%nat ∧
      (exceeded (np.cumsum t) (rng r) → first_exceeding (np.cumsum t) (rng r) v) ∧
      (¬ exceeded (np.cumsum t) (rng r) → v = 0%nat).
Proof.
  intros Hc Hk Hm He Hn Ht Hdata Hrep.
  destruct (simulate_experiment_outcomes base tensor rng modelparams expparams
              repeat s c k n t) as (s' & ret & Hrun & Hout & _); try done.
  exists s', ret. split; [exact Hrun|]. rewrite Hout. split.
  { by rewrite !length_fmap, length_seq. }
  intros r v Hr.
  rewrite <- list_fmap_compose, list_lookup_fmap in Hr.
  destruct (seq 0 (Z.to_nat repeat) !! r) as [r'|] eqn:Hseq; [|done].
  apply lookup_seq in Hseq as [-> _]. simpl in Hr. injection Hr as <-.
  split; [|split].
  - rewrite <- (length_cumsum_list (data t)). apply drawn_lt.
    unfold np.cumsum. intros Hnil. apply Hdata, length_zero_iff_nil.
    by rewrite <- length_cumsum_list, Hnil.
  - apply drawn_first_exceeding.
  - apply drawn_not_exceeded.
Qed.

Lemma simulate_experiment_flat_index_witness :
  let rng := λ r : nat, if r is O then 0.875%float else 0.375%float in
  let t := mk_ndarray [2; 2; 1]%nat [0.25; 0.25; 0.75; 0.75]%float in
  ∃ s' ret,
    Model.simulate_experiment (Examples.two_outcome 0.25) rng
      Examples.two_models Examples.one_experiment 2 Examples.counted = (s', Ok ret) ∧
    length (outcomes_of ret) = 2%nat ∧
    ∀ r v, outcomes_of ret !! r = Some v →
      (v < 4)%nat ∧
      (exceeded (np.cumsum t) (rng r) → first_exceeding (np.cumsum t) (rng r) v) ∧
      (¬ exceeded (np.cumsum t) (rng r) → v = 0%nat).
Proof.
  intros rng t.
  refine (simulate_experiment_flat_index (Examples.constant_outcomes 2) _ rng
            Examples.two_models Examples.one_experiment 2 Examples.counted
            0 0 2 t _ _ _ _ _ _ _ _);
    try reflexivity; try discriminate; lia.
Defined.

(** ** An instance built by [Simulatable.__init__] alone *)

(** The mirror image of the missing [_sim_count]: on an instance that holds
    [_sim_count] but not [_call_count], the default [simulate_experiment]
    raises [AttributeError] from its [likelihood] call, and the failed call
    has already been added to [sim_count]. *)
Theorem simulate_experiment_without_call_count {E} (base : Simulatable.methods E)
    tensor rng modelparams (expparams : ndarray E) repeat s c n :
  s !! "_sim_count" = Some c →
  s !! "_call_count" = None →
  shape modelparams ≠ [] → shape expparams ≠ [] →
  Simulatable.n_outcomes base expparams = [n] →
  Model.simulate_experiment (Model.concrete base tensor) rng
    modelparams expparams repeat s =
  (<["_sim_count" :=
       c + Z.of_nat (leading modelparams) * Z.of_nat (leading expparams) * repeat]> s,
   Raise AttributeError).
Proof.
  intros Hc Hk Hm He Hn. unfold Model.simulate_experiment.
  rewrite (bind_ok _ _ _ _ _
             (Simulatable_simulate_experiment_counts _ _ repeat _ _ Hc Hm He)).
  cbn [Model.simulatable Model.concrete]. rewrite Hn. cbn [np.arange].
  rewrite (bind_ok (lift (Ok (np.range n))) _ _ _ _ eq_refl).
  apply bind_raise. cbn [Model.self_likelihood]. apply bind_raise.
  unfold Model.likelihood. apply bind_raise, getattr_none.
  by rewrite lookup_insert_ne.
Qed.

Lemma simulate_experiment_without_call_count_witness :
  Model.simulate_experiment (Examples.two_outcome 0.25) (λ _, 0.5%float)
    Examples.two_models Examples.one_experiment 3 Edge.simulatable_only =
  (<["_sim_count" := 6]> Edge.simulatable_only, Raise AttributeError).
Proof.
  refine (simulate_experiment_without_call_count (Examples.constant_outcomes 2) _
            (λ _, 0.5%float) Examples.two_models Examples.one_experiment 3
            Edge.simulatable_only 0 2 _ _ _ _ _);
    try reflexivity; discriminate.
Defined.

(** ** More on [pr0_to_likelihood_array] *)

Lemma pr0_to_likelihood_array_stack (outcomes : list Z) (pr0 : ndarray float) :
  outcomes ≠ [] →
  Model.pr0_to_likelihood_array outcomes pr0 =
  Ok (mk_ndarray (length outcomes :: shape pr0)
        (concat (data <$> ((λ outcome : Z,
                              if outcome =? 0 then np.newaxis pr0
                              else np.one_minus (np.newaxis pr0)) <$> outcomes)))).
Proof.
  intros Hne. unfold Model.pr0_to_likelihood_array. cbv zeta.
  rewrite (concatenate_stack _ (shape pr0)).
  - by rewrite length_fmap.
  - by destruct outcomes.
  - apply Forall_fmap, Forall_forall. intros o _. unfold compose.
    by destruct (o =? 0).
Qed.

Lemma length_concat_pieces (outcomes : list Z) (pr0 : ndarray float) :
  length (concat (data <$> ((λ outcome : Z,
                               if outcome =? 0 then np.newaxis pr0
                               else np.one_minus (np.newaxis pr0)) <$> outcomes))) =
  (length outcomes * length (data pr0))%nat.
Proof.
  induction outcomes as [|o os IH]; [done|].
  cbn [fmap list_fmap concat length]. rewrite length_app.
  change (list_fmap _ _ ?f ?l) with (f <$> l) in *. rewrite IH.
  destruct (o =? 0); cbn [np.newaxis np.one_minus data]; [done|].
  by rewrite length_fmap.
Qed.

(** Only whether an outcome index is zero matters: any other index, 2 or
    [-1] as well as 1, selects [1 - pr0]. *)
Theorem pr0_to_likelihood_array_nonzero_alike (outcomes : list Z) (pr0 : ndarray float) :
  Model.pr0_to_likelihood_array outcomes pr0 =
  Model.pr0_to_likelihood_array
    ((λ outcome, if outcome =? 0 then 0 else 1) <$> outcomes) pr0.
Proof.
  unfold Model.pr0_to_likelihood_array. cbv zeta.
  rewrite <- list_fmap_compose. f_equal. apply list_fmap_ext.
  intros _ o _. unfold compose. by destruct (o =? 0).
Qed.

(** The helper raises only for the empty outcome array, and then
    [ValueError]; otherwise its result has the shape
    [(len(outcomes),) + pr0.shape] and holds [len(outcomes) * pr0.size]
    elements, so it is a well-formed array whenever [pr0] is, whatever the
    rank of [pr0]. *)
Theorem pr0_to_likelihood_array_well_formed (outcomes : list Z) (pr0 : ndarray float) :
  match Model.pr0_to_likelihood_array outcomes pr0 with
  | Ok L =>
      outcomes ≠ [] ∧
      shape L = length outcomes :: shape pr0 ∧
      length (data L) = (length outcomes * length (data pr0))%nat ∧
      (np.wf pr0 → np.wf L)
  | Raise e => outcomes = [] ∧ e = ValueError
  end.
Proof.
  destruct outcomes as [|o os]; [done|].
  rewrite pr0_to_likelihood_array_stack by done.
  split; [done|]. split; [done|]. split; [apply length_concat_pieces|].
  intros Hwf. unfold np.wf in *. cbn [shape data np.prod foldr].
  rewrite length_concat_pieces, Hwf. reflexivity.
Qed.

(** Asking for the outcomes [o1 ++ o2] is asking for [o1] and for [o2] and
    concatenating the two results along the outcome axis. *)
Theorem pr0_to_likelihood_array_app (o1 o2 : list Z) (pr0 : ndarray float) :
  o1 ≠ [] → o2 ≠ [] →
  Model.pr0_to_likelihood_array (o1 ++ o2) pr0 =
  (L1 ← Model.pr0_to_likelihood_array o1 pr0;
   L2 ← Model.pr0_to_likelihood_array o2 pr0;
   np.concatenate [L1; L2]).
Proof.
  intros H1 H2.
  rewrite !pr0_to_likelihood_array_stack by (done || by destruct o1).
  cbn [mbind result_bind]. unfold np.concatenate. cbn [shape data forallb tail].
  rewrite !bool_decide_eq_true_2 by done.
  cbn [andb foldr hd fmap list_fmap concat].
  change (list_fmap _ _ ?f ?l) with (f <$> l).
  rewrite !fmap_app, concat_app, length_app, app_nil_r, Nat.add_0_r.
  reflexivity.
Qed.

Lemma pr0_to_likelihood_array_app_witness :
  Model.pr0_to_likelihood_array ([0; 1] ++ [1])
    (mk_ndarray [1; 1]%nat [0.25%float]) =
  Ok (mk_ndarray [3; 1; 1]%nat [0.25; 0.75; 0.75]%float).
Proof.
  rewrite (pr0_to_likelihood_array_app [0; 1] [1]) by discriminate.
  reflexivity.
Defined.

(** ** When [is_model_valid] raises *)

(** [is_model_valid] stores nothing, raises nothing but [IndexError], and
    raises it in exactly two cases: the argument has rank zero, so the slice
    [[np.newaxis, :]] fails, or [are_models_valid] handed back an empty
    array, so [[0]] fails. *)
Theorem is_model_valid_errors {E} (self : Model.methods E)
    (modelparams : ndarray float) (s : instance) :
  let run := Model.is_model_valid self modelparams s in
  run.1 = s ∧
  (∀ e, run.2 = Raise e → e = IndexError) ∧
  (run.2 = Raise IndexError ↔
     shape modelparams = [] ∨
     Simulatable.are_models_valid self (np.newaxis modelparams) = []).
Proof.
  intros run. subst run. unfold Model.is_model_valid, np.newaxis_colon.
  destruct (shape modelparams) as [|n dims] eqn:Hshape.
  - split; [done|]. split; [by intros e [= <-]|]. split; [by left|done].
  - rewrite (bind_ok (lift (Ok _)) _ _ _ _ eq_refl). unfold lift. cbn [fst snd].
    destruct (Simulatable.are_models_valid self (np.newaxis modelparams))
      as [|valid rest]; cbn [np.getitem0].
    + split; [done|]. split; [by intros e [= <-]|]. split; [by right|done].
    + split; [done|]. split; [done|]. split; [done|]. by intros [?|?].
Qed.

(** ** A two-outcome model, end to end *)

Lemma drawn_two_outcomes (p0 p1 u : float) :
  drawn (np.cumsum_list [p0; p1]) u =
  if PrimFloat.ltb u p0 then 0%nat
  else if PrimFloat.ltb u (p0 + p1)%float then 1%nat else 0%nat.
Proof.
  unfold drawn, np.argmax_row. cbn.
  destruct (PrimFloat.ltb u p0); [done|].
  by destruct (PrimFloat.ltb u (p0 + p1)%float).
Qed.

(** [simulate_experiment] over a likelihood written with
    [pr0_to_likelihood_array]: on one (model, experiment) pair with
    [pr0 = p], a draw [u] gives outcome 0 when [u < p], outcome 1 when
    [p <= u < p + (1 - p)], and outcome 0 again for a draw the float64 sum
    [p + (1 - p)] does not exceed. *)
Theorem simulate_experiment_two_outcome {E} (base : Simulatable.methods E) tensor
    rng modelparams (expparams : ndarray E) repeat s (p : float) :
  single_pair base tensor modelparams expparams s 2
    (mk_ndarray [2; 1; 1]%nat [p; (1 - p)%float]) →
  0 ≤ repeat →
  Model.pr0_to_likelihood_array (np.range 2) (mk_ndarray [1; 1]%nat [p]) =
    Ok (mk_ndarray [2; 1; 1]%nat [p; (1 - p)%float]) ∧
  ∃ s' ret,
    Model.simulate_experiment (Model.concrete base tensor) rng
      modelparams expparams repeat s = (s', Ok ret) ∧
    outcomes_of ret =
      (λ u, if PrimFloat.ltb u p then 0%nat
            else if PrimFloat.ltb u (p + (1 - p))%float then 1%nat else 0%nat)
        <$> (rng <$> seq 0 (Z.to_nat repeat)).
Proof.
  intros Hpair Hrep. split; [reflexivity|].
  destruct (single_pair_outcomes base tensor rng _ _ repeat s _ _ Hpair Hrep)
    as (s' & ret & Hrun & Hout & _).
  exists s', ret. split; [exact Hrun|]. rewrite Hout.
  apply list_fmap_ext. intros _ u _. apply drawn_two_outcomes.
Qed.

Lemma simulate_experiment_two_outcome_witness :
  ∃ s' ret,
    Model.simulate_experiment (Examples.two_outcome 0.25)
      (λ r : nat, if r is O then 0.125%float else 0.5%float)
      Examples.one_model Examples.one_experiment 2 Examples.counted = (s', Ok ret) ∧
    outcomes_of ret = [0; 1]%nat.
Proof.
  destruct (simulate_experiment_two_outcome _ _
              (λ r : nat, if r is O then 0.125%float else 0.5%float) _ _ 2 _ 0.25
              single_pair_example) as [_ (s' & ret & Hrun & Hout)]; [lia|].
  exists s', ret. split; [exact Hrun|exact Hout].
Defined.

(** ** Larger draws never select earlier outcomes *)

Ltac order_cases :=
  repeat match goal with
         | |- context [Z.compare ?a ?b] => destruct (Z.compare_spec a b)
         | H : context [Z.compare ?a ?b] |- _ => destruct (Z.compare_spec a b)
         | |- context [Pos.compare ?a ?b] => destruct (Pos.compare_spec a b)
         | H : context [Pos.compare ?a ?b] |- _ => destruct (Pos.compare_spec a b)
         end;
  simpl in *; try subst; try discriminate; try lia; try reflexivity.

Lemma SFleb_ltb_trans x y z :
  SFleb x y = true → SFltb y z = true → SFltb x z = true.
Proof.
  unfold SFleb, SFltb.
  destruct x as [sx|sx| |sx mx ex], y as [sy|sy| |sy my ey], z as [sz|sz| |sz mz ez];
    simpl; try discriminate; try done;
    repeat match goal with b : bool |- _ => destruct b end;
    simpl; try discriminate; try done;
    change (Pos.compare_cont Eq) with Pos.compare;
    intros H1 H2; order_cases.
Qed.

Lemma float_leb_ltb_trans (x y z : float) :
  PrimFloat.leb x y = true → PrimFloat.ltb y z = true → PrimFloat.ltb x z = true.
Proof. rewrite leb_spec, !ltb_spec. apply SFleb_ltb_trans. Qed.

Lemma drawn_monotone cdf u u' :
  PrimFloat.leb u u' = true → exceeded cdf u' →
  (drawn cdf u ≤ drawn cdf u')%nat.
Proof.
  intros Hle Hex'.
  destruct (drawn_first_exceeding cdf u' Hex') as [(c & Hc & Hlt) _].
  pose proof (float_leb_ltb_trans _ _ _ Hle Hlt) as Hlt'.
  assert (exceeded cdf u) as Hex.
  { apply Exists_exists. exists c. split; [|done].
    apply list_elem_of_lookup. by eexists. }
  destruct (drawn_first_exceeding cdf u Hex) as [_ Hbefore].
  destruct (decide (drawn cdf u ≤ drawn cdf u')%nat) as [|Hgt]; [done|].
  specialize (Hbefore (drawn cdf u') c ltac:(lia) Hc). congruence.
Qed.

(** Within one call, a draw that is at most another draw never gets the
    larger outcome, as long as the larger draw is one some running sum
    strictly exceeds: the selection is monotone in the draw. *)
Theorem simulate_experiment_monotone_in_draw {E} (base : Simulatable.methods E) tensor
    rng modelparams (expparams : ndarray E) repeat s c k n t :
  s !! "_sim_count" = Some c →
  s !! "_call_count" = Some k →
  shape modelparams ≠ [] → shape expparams ≠ [] →
  Simulatable.n_outcomes base expparams = [n] →
  tensor (np.range n) modelparams expparams = Ok t →
  data t ≠ [] →
  0 ≤ repeat →
  ∃ s' ret,
    Model.simulate_experiment (Model.concrete base tensor) rng
      modelparams expparams repeat s = (s', Ok ret) ∧
    ∀ r1 r2 v1 v2,
      outcomes_of ret !! r1 = Some v1 →
      outcomes_of ret !! r2 = Some v2 →
      PrimFloat.leb (rng r1) (rng r2) = true →
      exceeded (np.cumsum t) (rng r2) →
      (v1 ≤ v2)%nat.
Proof.
  intros Hc Hk Hm He Hn Ht Hdata Hrep.
  destruct (simulate_experiment_outcomes base tensor rng modelparams expparams
              repeat s c k n t) as (s' & ret & Hrun & Hout & _); try done.
  exists s', ret. split; [exact Hrun|]. rewrite Hout.
  assert (∀ r v, (drawn (np.cumsum t) <$> (rng <$> seq 0 (Z.to_nat repeat))) !! r
                 = Some v → v = drawn (np.cumsum t) (rng r)) as Hat.
  { intros r v Hr.
    rewrite <- list_fmap_compose, list_lookup_fmap in Hr.
    destruct (seq 0 (Z.to_nat repeat) !! r) as [r'|] eqn:Hseq; [|done].
    apply lookup_seq in Hseq as [-> _]. simpl in Hr. by injection Hr as <-. }
  intros r1 r2 v1 v2 H1 H2 Hle Hex.
  rewrite (Hat _ _ H1), (Hat _ _ H2). by apply drawn_monotone.
Qed.

Lemma simulate_experiment_monotone_in_draw_witness :
  let rng := λ r : nat, if r is O then 0.125%float else 0.5%float in
  ∃ s' ret,
    Model.simulate_experiment (Examples.two_outcome 0.25) rng
      Examples.one_model Examples.one_experiment 2 Examples.counted = (s', Ok ret) ∧
    ∀ r1 r2 v1 v2,
      outcomes_of ret !! r1 = Some v1 →
      outcomes_of ret !! r2 = Some v2 →
      PrimFloat.leb (rng r1) (rng r2) = true →
      exceeded (np.cumsum (mk_ndarray [2; 1; 1]%nat [0.25; 0.75]%float)) (rng r2) →
      (v1 ≤ v2)%nat.
Proof.
  intros rng.
  refine (simulate_experiment_monotone_in_draw (Examples.constant_outcomes 2) _ rng
            Examples.one_model Examples.one_experiment 2 Examples.counted
            0 0 2 _ _ _ _ _ _ _ _ _);
    try reflexivity; try discriminate; lia.
Defined.

(** ** Both counters over a run of simulations *)

Lemma simulate_all_counters {E} (base : Simulatable.methods E) tensor calls s c k :
  Forall (simulate_call_counted base) calls →
  s !! "_sim_count" = Some c →
  s !! "_call_count" = Some k →
  simulate_all (Model.concrete base tensor) calls s !! "_sim_count"
    = Some (c + simulate_total calls) ∧
  simulate_all (Model.concrete base tensor) calls s !! "_call_count"
    = Some (k + simulate_likelihood_total base calls).
Proof.
  intros Hcalls. revert s c k.
  induction Hcalls as [|call calls [[Hm He] Hlen] _ IH]; intros s c k Hc Hk.
  - simpl. rewrite Hc, Hk. split; f_equal; lia.
  - unfold simulate_all in IH |- *. cbn [foldl].
    destruct (Simulatable.n_outcomes base (sim_expparams call))
      as [|n [|n' counts]] eqn:Hn; [done| |done].
    rewrite (Model_simulate_experiment_state base tensor _ _ _ _ s c k n) by done.
    match goal with |- context [foldl _ ?s1 calls] =>
      destruct (IH s1 _ _ ltac:(by rewrite lookup_insert_ne by done;
                                   apply lookup_insert_eq)
                   ltac:(apply lookup_insert_eq)) as [IHsim IHcall]
    end.
    rewrite IHsim, IHcall.
    unfold simulate_total, simulate_likelihood_total. cbn [foldr].
    rewrite Hn. cbn [hd]. split; f_equal; lia.
Qed.

(** Every default [simulate_experiment] call is also a [likelihood] call:
    on an instance that ran both initialisers, after [k] simulations on
    batches for which the model reports a single outcome count [n_i],
    [sim_count] is the sum of [n_models_i * n_experiments_i * repeat_i] and
    [call_count] is the sum of [n_i * n_models_i * n_experiments_i], though
    [likelihood] was never called from outside. *)
Theorem counters_after_simulations {E} (base : Simulatable.methods E) tensor
    (calls : list (simulate_call E)) (s0 : instance) :
  Forall (simulate_call_counted base) calls →
  let s := simulate_all (Model.concrete base tensor) calls
             (after Model.__init__ (after Simulatable.__init__ s0)) in
  Simulatable.sim_count s = (s, Ok (simulate_total calls)) ∧
  Model.call_count s = (s, Ok (simulate_likelihood_total base calls)).
Proof.
  intros Hcalls s. subst s.
  destruct (simulate_all_counters base tensor calls
              (after Model.__init__ (after Simulatable.__init__ s0)) 0 0 Hcalls)
    as [Hsim Hcall].
  { unfold after, Model.__init__, Simulatable.__init__, setattr. cbn [fst].
    rewrite lookup_insert_ne by done. apply lookup_insert_eq. }
  { apply lookup_insert_eq. }
  split; apply getattr_some; [rewrite Hsim|rewrite Hcall]; f_equal; lia.
Qed.

Lemma counters_after_simulations_witness :
  let calls := [ {| sim_rng := λ _, 0.5%float;
                    sim_modelparams := Examples.two_models;
                    sim_expparams := Examples.one_experiment;
                    sim_repeat := 3 |};
                 {| sim_rng := λ _, 0.125%float;
                    sim_modelparams := Examples.one_model;
                    sim_expparams := Examples.one_experiment;
                    sim_repeat := 1 |} ] in
  let s := simulate_all (Examples.two_outcome 0.25) calls Examples.counted in
  Simulatable.sim_count s = (s, Ok 7) ∧ Model.call_count s = (s, Ok 6).
Proof.
  intros calls.
  refine (counters_after_simulations (Examples.constant_outcomes 2) _ calls ∅ _).
  repeat constructor; discriminate.
Defined.

(** ** Outcome-count arrays that are not a single entry *)

(** When [n_outcomes(expparams)] does not have exactly one entry, whatever
    the class of [self], the default [simulate_experiment] raises
    [TypeError] at [np.arange]: [sim_count] has already been incremented
    for the call, nothing else is stored and [likelihood] is not reached. *)
Theorem simulate_experiment_outcome_counts {E} (self : Model.methods E)
    rng modelparams (expparams : ndarray E) repeat s c :
  s !! "_sim_count" = Some c →
  shape modelparams ≠ [] → shape expparams ≠ [] →
  length (Simulatable.n_outcomes self expparams) ≠ 1%nat →
  Model.simulate_experiment self rng modelparams expparams repeat s =
  (<["_sim_count" :=
       c + Z.of_nat (leading modelparams) * Z.of_nat (leading expparams) * repeat]> s,
   Raise TypeError).
Proof.
  intros Hc Hm He Hlen. unfold Model.simulate_experiment.
  rewrite (bind_ok _ _ _ _ _
             (Simulatable_simulate_experiment_counts _ _ repeat _ _ Hc Hm He)).
  by destruct (Simulatable.n_outcomes self expparams) as [|n [|n' counts]].
Qed.

Lemma simulate_experiment_outcome_counts_witness :
  Model.simulate_experiment (Examples.two_outcome 0.25) (λ _, 0.5%float)
    Examples.two_models Examples.two_experiments 3 Edge.simulatable_only
  = (<["_sim_count" := 12]> Edge.simulatable_only, Raise TypeError).
Proof.
  refine (simulate_experiment_outcome_counts (Examples.two_outcome 0.25)
            (λ _, 0.5%float) Examples.two_models Examples.two_experiments 3
            Edge.simulatable_only 0 _ _ _ _);
    try reflexivity; discriminate.
Defined.
